(** * ansible-cisco-snmp: the SNMP state-reconciliation modules

    A shallow embedding of [library/cisco_snmp_cdp.py] and
    [library/cisco_snmp_switchport.py].

    Both modules follow one pattern: resolve an interface index, map the
    caller's labels to integers, and for each requested setting read the
    device, compare, and write only on a difference.  The SNMP client
    ([nelsnmp.snmp.SnmpHandler]), the OID catalog
    ([nelsnmp.vendors.cisco.oids.CiscoOids]) and the Ansible front end
    ([AnsibleModule]) are collaborators outside the repository: the client
    is an interface (a type class), the catalog a record of strings, and the
    front end is represented by its two exits, [exit_json] and [fail_json],
    which both leave the process through [SystemExit]. *)

From Stdlib Require Import ZArith Ascii String.
From Stdlib Require Import DecimalString DecimalPos.
From stdpp Require Import base gmap strings list.

Local Open Scope Z_scope.

(** ** Python values, exceptions and control flow *)

(** What an SNMP read hands back, and what [set] is given: integers and
    octet strings.  The desired state is always a Python [int]. *)
Inductive value :=
  | VInt (z : Z)
  | VStr (s : string).

#[global] Instance value_eq_dec : EqDecision value.
Proof. solve_decision. Defined.

(** Python [==] on this domain: an [int] never equals a [str]. *)
Definition py_eq (a b : value) : bool :=
  match a, b with
  | VInt x, VInt y => bool_decide (x = y)
  | VStr s, VStr t => bool_decide (s = t)
  | _, _ => false
  end.

(** The JSON document a module run ends with. *)
Inductive json :=
  | ExitJson (changed : bool)
  | FailJson (msg : string).

(** Exceptions, by what the [except] clauses of the source can tell apart:
    [except Exception] catches [Exception] and its subclasses only, a bare
    [except:] catches everything, [SystemExit] included. *)
Inductive exc :=
  | SystemExit (j : json)
  | Exception (cls msg : string)
  | BaseException (cls msg : string).

Definition is_Exception (e : exc) : bool :=
  match e with Exception _ _ => true | _ => false end.

(** [str(err)] *)
Definition str_exc (e : exc) : string :=
  match e with
  | SystemExit _ => ""
  | Exception _ msg | BaseException _ msg => msg
  end.

Inductive result (A : Type) :=
  | Ret (a : A)
  | Raise (e : exc).
Arguments Ret {A} a.
Arguments Raise {A} e.

(** ** The SNMP client and the record of what was asked of it *)

(** A keyword argument of [SnmpHandler]: a string, or the [False] that
    [community] defaults to. *)
Inductive kwarg :=
  | KFalse
  | KStr (s : string).

Inductive op :=
  | GET
  | SET (v : value)
  | GETNEXT.

(** One request sent to the device, and whether the client call returned
    ([ev_ok = true]) or raised. *)
Record event := Event { ev_op : op; ev_oid : string; ev_ok : bool }.

#[global] Instance op_eq_dec : EqDecision op.
Proof. solve_decision. Defined.
#[global] Instance event_eq_dec : EqDecision event.
Proof. solve_decision. Defined.

Definition is_SET (e : event) : bool :=
  match ev_op e with SET _ => true | _ => false end.
Definition is_GET (e : event) : bool :=
  match ev_op e with GET => true | _ => false end.

(** A walk of a table, as [dev.getnext] returns it: rows of
    [(oid, value)] pairs. *)
Definition vartable := list (list (string * value)).

(** The calls the modules make on [SnmpHandler].  [D] is the state of
    the remote device as seen through the session; every call may change it
    and may raise. *)
Class SnmpHandler (D : Type) := {
  dev_connect : D -> gmap string kwarg -> option exc;
  dev_get_value : D -> string -> (exc + value) * D;
  dev_set : D -> string -> value -> option exc * D;
  dev_getnext : D -> string -> (exc + vartable) * D
}.

(** The OID catalog [o = CiscoOids()]: the attributes the modules read. *)
Record CiscoOids := {
  ifDescr : string;
  cdpGlobalRun : string;
  cdpInterfaceEnable : string;
  vlanTrunkPortDynamicState : string;
  vmVlan : string;
  vlanTrunkPortNativeVlan : string
}.

(** ** The monad of a module run: device state, request log, exceptions *)

Record world (D : Type) := World { device : D; trace : list event }.
Arguments World {D} device trace.
Arguments device {D} w.
Arguments trace {D} w.

Definition M (D A : Type) : Type := world D -> result A * world D.

Definition ret {D A} (a : A) : M D A := fun w => (Ret a, w).
Definition raise {D A} (e : exc) : M D A := fun w => (Raise e, w).
Definition bind {D A B} (m : M D A) (k : A -> M D B) : M D B :=
  fun w => match m w with
           | (Ret a, w') => k a w'
           | (Raise e, w') => (Raise e, w')
           end.

Notation "x <- m ;; k" := (bind m (fun x => k))
  (at level 100, m at next level, right associativity).
Notation "m ;;; k" := (bind m (fun _ => k))
  (at level 100, right associativity).

(** [try: body / except Exception as err: handler err] *)
Definition try_except_Exception {D A} (body : M D A) (handler : exc -> M D A)
  : M D A :=
  fun w => match body w with
           | (Raise e, w') =>
               if is_Exception e then handler e w' else (Raise e, w')
           | r => r
           end.

(** [try: body / except: handler] *)
Definition try_except {D A} (body : M D A) (handler : M D A) : M D A :=
  fun w => match body w with
           | (Raise _, w') => handler w'
           | r => r
           end.

(** [module.fail_json(msg=...)] and [module.exit_json(changed=...)]: print
    the document and call [sys.exit]. *)
Definition fail_json {D A} (msg : string) : M D A :=
  raise (SystemExit (FailJson msg)).
Definition exit_json {D A} (changed : bool) : M D A :=
  raise (SystemExit (ExitJson changed)).

(** A run starts with an empty request log. *)
Definition run {D A} (m : M D A) (d : D) : result A * world D :=
  m (World d []).

(** ** Python built-ins the modules rely on *)

(** Truth value of a module argument: [None] and the empty string are
    false, every other string is true. *)
Definition truthy (x : option string) : bool :=
  match x with
  | Some (String _ _) => true
  | _ => false
  end.

(** The string held by an argument that passed [truthy]. *)
Definition the (x : option string) : string := default "" x.

(** [s.rsplit('.', 1)], as the pair (text before the last dot, if there is
    a dot; text after it). *)
Fixpoint rsplit_dot (s : string) : option string * string :=
  match s with
  | EmptyString => (None, EmptyString)
  | String c r =>
      match rsplit_dot r with
      | (Some h, t) => (Some (String c h), t)
      | (None, t) =>
          if Ascii.eqb c "." then (Some EmptyString, t)
          else (None, String c t)
      end
  end.

Definition rsplit1 (s : string) : list string :=
  match rsplit_dot s with
  | (Some h, t) => [h; t]
  | (None, t) => [t]
  end.

(** [l[-1]] of a list; [rsplit] never returns an empty one. *)
Definition item_last (l : list string) : string := default "" (last l).

(** [int(s)] on an ASCII string: surrounding whitespace is stripped, one
    sign is allowed, then decimal digits, where single underscores may
    separate digits (PEP 515; Python 2 rejects them).  [None] stands for
    [ValueError].  Whitespace is what [str.isspace] accepts below 128. *)
Definition is_space (c : ascii) : bool :=
  let n := nat_of_ascii c in
  ((9 <=? n) && (n <=? 13) || (28 <=? n) && (n <=? 32))%nat.

Definition digit_of (c : ascii) : option Z :=
  let n := nat_of_ascii c in
  if ((48 <=? n) && (n <=? 57))%nat then Some (Z.of_nat (n - 48)) else None.

Fixpoint lstrip (l : list ascii) : list ascii :=
  match l with
  | c :: r => if is_space c then lstrip r else l
  | [] => []
  end.

Definition strip (l : list ascii) : list ascii :=
  rev (lstrip (rev (lstrip l))).

(** Digits after the sign; [after_digit] says that the previous character
    was a digit, so that an underscore or the end may follow. *)
Fixpoint int_digits (acc : Z) (after_digit : bool) (l : list ascii)
  : option Z :=
  match l with
  | [] => if after_digit then Some acc else None
  | c :: r =>
      match digit_of c with
      | Some d => int_digits (10 * acc + d) true r
      | None =>
          if Ascii.eqb c "_" && after_digit then int_digits acc false r
          else None
      end
  end.

Definition py_int (s : string) : option Z :=
  match strip (list_ascii_of_string s) with
  | c :: r =>
      if Ascii.eqb c "-" then Z.opp <$> int_digits 0 false r
      else if Ascii.eqb c "+" then int_digits 0 false r
      else int_digits 0 false (c :: r)
  | [] => None
  end.

(** [d[key]] on a dict literal with string keys. *)
Definition dict_get {D} (d : gmap string Z) (key : string) : M D Z :=
  match d !! key with
  | Some v => ret v
  | None => raise (Exception "KeyError" ("'" +:+ key +:+ "'"))
  end.

(** Reading a local variable that no executed statement has bound. *)
Definition local {D} (name : string) (x : option string) : M D string :=
  match x with
  | Some v => ret v
  | None =>
      raise (Exception "UnboundLocalError"
               ("local variable '" +:+ name
                +:+ "' referenced before assignment"))
  end.

(** ** What both modules share *)

Definition NELSNMP_PARAMETERS : list string :=
  ["host"; "community"; "version"; "level"; "integrity"; "privacy";
   "username"; "authkey"; "privkey"].

(** The connection entries of [module.params].  [None] is Python's [None],
    except for [community], whose absent value is [False]. *)
Record connection := {
  host : option string;
  version : option string;
  community : option string;
  username : option string;
  level : option string;
  integrity : option string;
  privacy : option string;
  authkey : option string;
  privkey : option string
}.

Section Client.
Context {D : Type} `{SnmpHandler D}.

(** [dev.get_value(oid)] *)
Definition get_value (oid : string) : M D value :=
  fun w => match dev_get_value (device w) oid with
           | (inr v, d) => (Ret v, World d (trace w ++ [Event GET oid true]))
           | (inl e, d) => (Raise e, World d (trace w ++ [Event GET oid false]))
           end.

(** [dev.set(oid, v)] *)
Definition set_value (oid : string) (v : value) : M D unit :=
  fun w => match dev_set (device w) oid v with
           | (None, d) =>
               (Ret tt, World d (trace w ++ [Event (SET v) oid true]))
           | (Some e, d) =>
               (Raise e, World d (trace w ++ [Event (SET v) oid false]))
           end.

(** [dev.getnext(oid)] *)
Definition getnext (oid : string) : M D vartable :=
  fun w => match dev_getnext (device w) oid with
           | (inr t, d) =>
               (Ret t, World d (trace w ++ [Event GETNEXT oid true]))
           | (inl e, d) =>
               (Raise e, World d (trace w ++ [Event GETNEXT oid false]))
           end.

(** ** [changed_status] and [set_state]

    Both files define the two functions with the same text; the CDP file
    tests [changed is True] where the switchport file tests
    [changed == True], which agree on the booleans [set_state] returns. *)

Definition changed_status (changed has_changed : bool) : bool :=
  if changed then true else has_changed.

Definition set_state (oid : string) (desired_state : value) : M D bool :=
  current_state <-
    try_except_Exception (get_value oid)
                         (fun err => fail_json (str_exc err)) ;;
  if py_eq current_state desired_state then ret false
  else
    try_except (set_value oid desired_state)
               (fail_json "Unable to write to device") ;;;
    ret true.

Variable o : CiscoOids.
Variable has_nelsnmp : bool.

(** The loop over [m_args] that keeps the entries named in
    [NELSNMP_PARAMETERS], the connection
    parameters whose value is not [None]. *)
Definition nelsnmp_args (c : connection) : gmap string kwarg :=
  list_to_map
    (omap (fun kv : string * option kwarg =>
             if bool_decide (fst kv ∈ NELSNMP_PARAMETERS)
             then (fst kv,.) <$> snd kv else None)
       [("host", KStr <$> host c);
        ("community", Some (from_option KStr KFalse (community c)));
        ("version", KStr <$> version c);
        ("level", KStr <$> level c);
        ("integrity", KStr <$> integrity c);
        ("privacy", KStr <$> privacy c);
        ("username", KStr <$> username c);
        ("authkey", KStr <$> authkey c);
        ("privkey", KStr <$> privkey c)]).

(** The call of [SnmpHandler] on the unpacked [nelsnmp_args]. *)
Definition SnmpHandler_new (kw : gmap string kwarg) : M D unit :=
  fun w => match dev_connect (device w) kw with
           | None => (Ret tt, w)
           | Some e => (Raise e, w)
           end.

(** An [if] without [else]. *)
Definition when (b : bool) (m : M D unit) : M D unit :=
  if b then m else ret tt.

(** The start of [main] in both files, from the [has_nelsnmp] test to the
    construction of [dev]. *)
Definition open_session (c : connection) : M D unit :=
  when (negb has_nelsnmp)
    (fail_json "Missing required nelsnmp module (check docs)") ;;;
  when (bool_decide (version c = Some "2c"))
    (when (bool_decide (community c = None))
       (fail_json "Community not set when using snmp version 2")) ;;;
  when (bool_decide (version c = Some "3"))
    (when (bool_decide (username c = None))
       (fail_json "Username not set when using snmp version 3") ;;;
     when (bool_decide (level c = Some "authPriv")
           && bool_decide (privacy c = None))
       (fail_json "Privacy algorithm not set when using authPriv")) ;;;
  try_except_Exception (SnmpHandler_new (nelsnmp_args c))
                       (fun err => fail_json (str_exc err)).

(** The two nested [for] loops over the walk: every entry whose value
    equals the name overwrites [interface]. *)
Definition scan_varbinds (name : string) (interface : option string)
    (varbinds : list (string * value)) : option string :=
  fold_left
    (fun interface (entry : string * value) =>
       let (oid, val) := entry in
       if py_eq (VStr name) val then Some (item_last (rsplit1 oid))
       else interface)
    varbinds interface.

Definition scan_vartable (name : string) (t : vartable) : option string :=
  fold_left (scan_varbinds name) t None.

(** The [try] block under [if m_args['interface_name']:].  [None] is
    the [False] that [interface] starts with. *)
Definition interface_by_name (name : string) : M D string :=
  try_except_Exception
    (t <- getnext (ifDescr o) ;;
     match scan_vartable name t with
     | None => fail_json "Unable to find interface"
     | Some interface => ret interface
     end)
    (fun err => fail_json (str_exc err)).

(** Lines from [if m_args['interface_name']:] to the assignment from
    [interface_id]; the result is the local [interface], [None] while no
    statement has bound it. *)
Definition bind_interface (interface_name interface_id : option string)
  : M D (option string) :=
  interface <-
    (if truthy interface_name
     then i <- interface_by_name (the interface_name) ;; ret (Some i)
     else ret None) ;;
  ret (if truthy interface_id then Some (the interface_id) else interface).
End Client.

(** ** [cisco_snmp_cdp.py] *)
Module Cdp.
Definition CDP_STATE : gmap string Z :=
  list_to_map [("enabled", 1); ("disabled", 2)].

(** [choices] of [cdp_global] and of [cdp_interface] in the argument
    spec. *)
Definition cdp_choices : list string := ["enabled"; "disabled"].

Record params := {
  conn : connection;
  cdp_global : option string;
  cdp_interface : option string;
  interface_id : option string;
  interface_name : option string;
  removeplaceholder : option string
}.

(** The value checks of [AnsibleModule] that matter to the codec. *)
Definition choices_ok (m_args : params) : Prop :=
  (forall v, cdp_global m_args = Some v -> v ∈ cdp_choices) /\
  (forall v, cdp_interface m_args = Some v -> v ∈ cdp_choices).

Section Main.
Context {D : Type} `{SnmpHandler D}.
Variable o : CiscoOids.
Variable has_nelsnmp : bool.

(** The block under [if m_args['cdp_global']:]. *)
Definition set_cdp_global (m_args : params) (has_changed : bool)
  : M D bool :=
  if truthy (cdp_global m_args) then
    let oid := cdpGlobalRun o +:+ ".0" in
    desired_state <- dict_get CDP_STATE (the (cdp_global m_args)) ;;
    changed <- set_state oid (VInt desired_state) ;;
    ret (changed_status changed has_changed)
  else ret has_changed.

(** The block under [if m_args['cdp_interface']:]. *)
Definition set_cdp_interface (m_args : params)
    (interface : option string) (has_changed : bool) : M D bool :=
  if truthy (cdp_interface m_args) then
    i <- local "interface" interface ;;
    let oid := cdpInterfaceEnable o +:+ "." +:+ i in
    desired_state <- dict_get CDP_STATE (the (cdp_interface m_args)) ;;
    changed <- set_state oid (VInt desired_state) ;;
    ret (changed_status changed has_changed)
  else ret has_changed.

Definition main (m_args : params) : M D unit :=
  open_session has_nelsnmp (conn m_args) ;;;
  let has_changed := false in
  interface <-
    bind_interface o (interface_name m_args) (interface_id m_args) ;;
  has_changed <- set_cdp_global m_args has_changed ;;
  has_changed <- set_cdp_interface m_args interface has_changed ;;
  exit_json has_changed.
End Main.
End Cdp.

(** ** [cisco_snmp_switchport.py] *)
Module Switchport.
Definition PORT_MODE : gmap string Z :=
  list_to_map [("trunk", 1); ("access", 2); ("desirable", 3);
               ("auto", 4); ("trunk-nonegotiate", 5)].

(** [choices] of [mode] in the argument spec of [main]. *)
Definition mode_choices : list string :=
  ["access"; "trunk"; "desireable"; "auto"; "trunk-nonegotiate"].

(** [choices] of [mode] in [DOCUMENTATION]. *)
Definition mode_documented : list string :=
  ["access"; "trunk"; "desirable"; "auto"; "trunk-nonegotiate"].

Record params := {
  conn : connection;
  mode : option string;
  interface_id : option string;
  interface_name : option string;
  access_vlan : option string;
  native_vlan : option string;
  removeplaceholder : option string
}.

Definition choices_ok (m_args : params) : Prop :=
  exists v, mode m_args = Some v /\ v ∈ mode_choices.

(** [int(s)], raising [ValueError] where [py_int] has no result. *)
Definition int {D} (s : string) : M D Z :=
  match py_int s with
  | Some z => ret z
  | None =>
      raise (Exception "ValueError"
               ("invalid literal for int() with base 10: '" +:+ s +:+ "'"))
  end.

Section Main.
Context {D : Type} `{SnmpHandler D}.
Variable o : CiscoOids.
Variable has_nelsnmp : bool.

(** The block under [if m_args['mode']:]. *)
Definition set_mode (m_args : params) (interface : option string)
    (has_changed : bool) : M D bool :=
  if truthy (mode m_args) then
    i <- local "interface" interface ;;
    let oid := vlanTrunkPortDynamicState o +:+ "." +:+ i in
    desired_state <- dict_get PORT_MODE (the (mode m_args)) ;;
    changed <- set_state oid (VInt desired_state) ;;
    ret (changed_status changed has_changed)
  else ret has_changed.

(** The block under [if m_args['access_vlan']:]. *)
Definition set_access_vlan (m_args : params) (interface : option string)
    (has_changed : bool) : M D bool :=
  if truthy (access_vlan m_args) then
    i <- local "interface" interface ;;
    let oid := vmVlan o +:+ "." +:+ i in
    desired_state <- int (the (access_vlan m_args)) ;;
    changed <- set_state oid (VInt desired_state) ;;
    ret (changed_status changed has_changed)
  else ret has_changed.

(** The block under [if m_args['native_vlan']:]. *)
Definition set_native_vlan (m_args : params) (interface : option string)
    (has_changed : bool) : M D bool :=
  if truthy (native_vlan m_args) then
    i <- local "interface" interface ;;
    let oid := vlanTrunkPortNativeVlan o +:+ "." +:+ i in
    desired_state <- int (the (native_vlan m_args)) ;;
    changed <- set_state oid (VInt desired_state) ;;
    ret (changed_status changed has_changed)
  else ret has_changed.

Definition main (m_args : params) : M D unit :=
  open_session has_nelsnmp (conn m_args) ;;;
  let has_changed := false in
  interface <-
    bind_interface o (interface_name m_args) (interface_id m_args) ;;
  has_changed <- set_mode m_args interface has_changed ;;
  has_changed <- set_access_vlan m_args interface has_changed ;;
  has_changed <- set_native_vlan m_args interface has_changed ;;
  exit_json has_changed.
End Main.
End Switchport.

(** ** A device for the examples

    A simulated agent: it stores what is written, answers reads from its
    store, refuses writes to the OIDs listed as read-only and answers every
    walk with its interface table. *)
Module Sim.
Record dev := Dev {
  mib : gmap string value;
  if_table : vartable;
  read_only : list string
}.

#[global] Instance handler : SnmpHandler dev := {
  dev_connect _ _ := None;
  dev_get_value d oid :=
    (match mib d !! oid with
     | Some v => inr v
     | None => inl (Exception "SnmpError" "noSuchObject")
     end, d);
  dev_set d oid v :=
    if bool_decide (oid ∈ read_only d)
    then (Some (Exception "SnmpError" "notWritable"), d)
    else (None, Dev (<[oid := v]> (mib d)) (if_table d) (read_only d));
  dev_getnext d _ := (inr (if_table d), d)
}.

(** The OIDs of the Cisco MIBs behind the catalog's attribute names. *)
Definition cisco : CiscoOids := {|
  ifDescr := "1.3.6.1.2.1.2.2.1.2";
  cdpGlobalRun := "1.3.6.1.4.1.9.9.23.1.3.1";
  cdpInterfaceEnable := "1.3.6.1.4.1.9.9.23.1.1.1.1.2";
  vlanTrunkPortDynamicState := "1.3.6.1.4.1.9.9.46.1.6.1.1.13";
  vmVlan := "1.3.6.1.4.1.9.9.68.1.2.2.1.2";
  vlanTrunkPortNativeVlan := "1.3.6.1.4.1.9.9.46.1.6.1.1.5"
|}.

Definition v2c : connection := {|
  host := Some "sw1"; version := Some "2c"; community := Some "private";
  username := None; level := None; integrity := None; privacy := None;
  authkey := None; privkey := None
|}.

(** A switch with two ports; port 5 is a trunk in VLAN 12. *)
Definition switch : dev := {|
  mib := list_to_map
           [("1.3.6.1.4.1.9.9.46.1.6.1.1.13.5", VInt 1);
            ("1.3.6.1.4.1.9.9.68.1.2.2.1.2.5", VInt 12);
            ("1.3.6.1.4.1.9.9.46.1.6.1.1.5.5", VInt 1);
            ("1.3.6.1.4.1.9.9.23.1.3.1.0", VInt 1);
            ("1.3.6.1.4.1.9.9.23.1.1.1.1.2.5", VInt 2)];
  if_table := [[("1.3.6.1.2.1.2.2.1.2.5", VStr "Gi0/1")];
               [("1.3.6.1.2.1.2.2.1.2.6", VStr "Gi0/2")]];
  read_only := []
|}.

(** A table in which the name of port 5 comes back at index 7. *)
Definition twins : dev := {|
  mib := ∅;
  if_table := [[("1.3.6.1.2.1.2.2.1.2.5", VStr "Gi0/1");
                ("1.3.6.1.2.1.2.2.1.2.6", VStr "Gi0/2")];
               [("1.3.6.1.2.1.2.2.1.2.7", VStr "Gi0/1");
                ("1.3.6.1.2.1.2.2.1.2.8", VStr "Gi0/3")]];
  read_only := []
|}.

Definition port (m : string) (id name access native : option string)
  : Switchport.params := {|
  Switchport.conn := v2c;
  Switchport.mode := Some m;
  Switchport.interface_id := id;
  Switchport.interface_name := name;
  Switchport.access_vlan := access;
  Switchport.native_vlan := native;
  Switchport.removeplaceholder := None
|}.

Definition cdp (global iface id name : option string) : Cdp.params := {|
  Cdp.conn := v2c;
  Cdp.cdp_global := global;
  Cdp.cdp_interface := iface;
  Cdp.interface_id := id;
  Cdp.interface_name := name;
  Cdp.removeplaceholder := None
|}.
End Sim.

(** * The vocabulary of the properties *)

(** ** Devices and repeated invocations *)
Section Laws.
Context {D : Type} `{SnmpHandler D}.

(** A device on which reads leave the state alone and a write that
    returned is what the next read of that OID gives. *)
Definition reads_are_pure : Prop :=
  forall (d : D) oid, snd (dev_get_value d oid) = d.
Definition reads_back : Prop :=
  forall (d d' : D) oid v,
    dev_set d oid v = (None, d') -> dev_get_value d' oid = (inr v, d').

(** [n] further invocations of [set_state] with the same arguments. *)
Fixpoint again (n : nat) (oid : string) (desired : value)
  : M D (list bool) :=
  match n with
  | O => ret []
  | S n' =>
      c <- set_state oid desired ;;
      cs <- again n' oid desired ;;
      ret (c :: cs)
  end.

End Laws.

(** *** Decimal literals *)





(** ** Request logs *)

Definition write_error : exc :=
  SystemExit (FailJson "Unable to write to device").

(** A write that the client raised on. *)
Definition failed_SET (e : event) : bool := is_SET e && negb (ev_ok e).

Definition clean (evs : list event) : Prop :=
  Forall (fun e => failed_SET e = false) evs.

(** Either no write was refused, or the refused write is the last request
    and the result is the write error. *)
Definition fail_fast {A} (r : result A) (evs : list event) : Prop :=
  clean evs
  \/ exists pre e, evs = pre ++ [e] /\ clean pre /\ failed_SET e = true
                   /\ r = Raise write_error.

(** [emits S m]: whatever the world, [m] appends requests that all satisfy
    [S], and it is fail-fast about them. *)
Definition emits {D A} (S : event -> Prop) (m : M D A) : Prop :=
  forall w, exists evs,
    trace (m w).2 = trace w ++ evs /\ Forall S evs /\ fail_fast (m w).1 evs.

(** A request made for the setting with argument [arg] and OID [base]:
    the argument is set, and the request is a read or a write in the
    subtree of [base]. *)
Definition belongs (arg : option string) (base : string) (e : event) : Prop :=
  truthy arg = true /\ ev_op e <> GETNEXT
  /\ exists i, ev_oid e = base +:+ "." +:+ i.

(** Two catalog entries whose subtrees share no OID. *)
Definition separate (a b : string) : Prop :=
  forall x y, a +:+ "." +:+ x <> b +:+ "." +:+ y.

Definition catalog_separate (o : CiscoOids) : Prop :=
  separate (cdpGlobalRun o) (cdpInterfaceEnable o)
  /\ separate (vlanTrunkPortDynamicState o) (vmVlan o)
  /\ separate (vlanTrunkPortDynamicState o) (vlanTrunkPortNativeVlan o)
  /\ separate (vmVlan o) (vlanTrunkPortNativeVlan o).

(** The changed flag of one setting: what its [set_state] call returned,
    [False] for a setting that was not requested. *)
Definition flag {D} `{SnmpHandler D} (arg : option string)
    (codec : string -> option Z) (base : string) (interface : option string)
    (w : world D) (c : bool) (w' : world D) : Prop :=
  if truthy arg then
    exists i v, interface = Some i /\ codec (the arg) = Some v
                /\ set_state (base +:+ "." +:+ i) (VInt v) w = (Ret c, w')
  else c = false /\ w' = w.

(** The requests a run of the switchport module may send: walks, and reads
    and writes that belong to a requested setting. *)
Definition requested (o : CiscoOids) (m_args : Switchport.params)
    (e : event) : Prop :=
  ev_op e = GETNEXT
  \/ belongs (Switchport.mode m_args) (vlanTrunkPortDynamicState o) e
  \/ belongs (Switchport.access_vlan m_args) (vmVlan o) e
  \/ belongs (Switchport.native_vlan m_args) (vlanTrunkPortNativeVlan o) e.

(** The same for the CDP module. *)
Definition cdp_requested (o : CiscoOids) (m_args : Cdp.params)
    (e : event) : Prop :=
  ev_op e = GETNEXT
  \/ belongs (Cdp.cdp_global m_args) (cdpGlobalRun o) e
  \/ belongs (Cdp.cdp_interface m_args) (cdpInterfaceEnable o) e.

(** ** The start of [main] *)

(** What the checks before the construction of [dev] ask of the
    connection parameters. *)
Definition credentials_ok (c : connection) : Prop :=
  (version c = Some "2c" -> community c <> None)
  /\ (version c = Some "3" ->
      username c <> None
      /\ (level c = Some "authPriv" -> privacy c <> None)).

(** ** Devices that keep what is written *)
Section DeviceLaws.
Context {D : Type} `{SnmpHandler D}.

(** [d'] answers as [d] does, except to reads of the OIDs in [S]. *)
Definition agrees_off (S : string -> Prop) (d d' : D) : Prop :=
  (forall kw, dev_connect d' kw = dev_connect d kw)
  /\ (forall oid, (dev_getnext d' oid).1 = (dev_getnext d oid).1)
  /\ (forall oid, ~ S oid ->
                  (dev_get_value d' oid).1 = (dev_get_value d oid).1).

(** Reads and walks leave the device alone, an accepted write is read
    back, and it changes the answer to nothing but reads of its OID. *)
Record lawful : Prop := {
  law_get_pure : reads_are_pure;
  law_walk_pure : forall (d : D) oid, (dev_getnext d oid).2 = d;
  law_read_back : reads_back;
  law_frame : forall (d d' : D) oid v,
      dev_set d oid v = (None, d') -> agrees_off (eq oid) d d'
}.

(** The client does not raise the [SystemExit] of [exit_json]. *)
Definition never_exits : Prop :=
  (forall (d : D) kw c, dev_connect d kw <> Some (SystemExit (ExitJson c)))
  /\ (forall (d : D) oid c,
         (dev_get_value d oid).1 <> inl (SystemExit (ExitJson c)))
  /\ (forall (d : D) oid c,
         (dev_getnext d oid).1 <> inl (SystemExit (ExitJson c))).

(** Reading [oid] on [d] gives a value equal to [v] and leaves [d]. *)
Definition settled (d : D) (oid : string) (v : value) : Prop :=
  exists cur, dev_get_value d oid = (inr cur, d) /\ py_eq cur v = true.

(** The changed flag of a setting whose OID does not depend on the
    interface. *)
Definition flag_at (arg : option string) (codec : string -> option Z)
    (oid : string) (w : world D) (c : bool) (w' : world D) : Prop :=
  if truthy arg then
    exists v, codec (the arg) = Some v
              /\ set_state oid (VInt v) w = (Ret c, w')
  else c = false /\ w' = w.
End DeviceLaws.

(** The four request sequences of one [set_state] call, with its result. *)
Definition set_state_outcome (oid : string) (desired : value)
    (evs : list event) (changed : result bool) : Prop :=
  (evs = [Event GET oid true] /\ changed = Ret false)
  \/ (evs = [Event GET oid true; Event (SET desired) oid true]
      /\ changed = Ret true)
  \/ (evs = [Event GET oid true; Event (SET desired) oid false]
      /\ changed = Raise write_error)
  \/ (evs = [Event GET oid false] /\ exists e, changed = Raise e).

(** ** How a computation can end *)

(** [raises P m]: every exception that [m] ends in satisfies [P]. *)
Definition raises {D A} (P : exc -> Prop) (m : M D A) : Prop :=
  forall w e, (m w).1 = Raise e -> P e.

(** An exception that the constructor, a read or a walk of the client
    raised. *)
Definition from_client {D} `{SnmpHandler D} (e : exc) : Prop :=
  (exists (d : D) kw, dev_connect d kw = Some e)
  \/ (exists (d : D) oid, (dev_get_value d oid).1 = inl e)
  \/ (exists (d : D) oid, (dev_getnext d oid).1 = inl e).

(** The endings every step before [exit_json] can have: [fail_json], or an
    exception of the client that is no [Exception]. *)
Definition fail_or_client {D} `{SnmpHandler D} (e : exc) : Prop :=
  (exists msg, e = SystemExit (FailJson msg))
  \/ (is_Exception e = false /\ from_client e).

(** [UnboundLocalError] for the local [interface]. *)
Definition unbound_interface (e : exc) : Prop :=
  exists msg, e = Exception "UnboundLocalError" msg.

(** [KeyError] for the label of a requested setting that the table lacks. *)
Definition missing_label (table : gmap string Z) (arg : option string)
    (e : exc) : Prop :=
  truthy arg = true /\ table !! the arg = None
  /\ e = Exception "KeyError" ("'" +:+ the arg +:+ "'").

(** [ValueError] for a requested VLAN that [int] rejects. *)
Definition bad_vlan (arg : option string) (e : exc) : Prop :=
  truthy arg = true /\ py_int (the arg) = None
  /\ e = Exception "ValueError"
                   ("invalid literal for int() with base 10: '"
                    +:+ the arg +:+ "'").

(** The ways a run of the switchport module can end. *)
Definition switchport_ending {D} `{SnmpHandler D}
    (m_args : Switchport.params) (e : exc) : Prop :=
  (exists c, e = SystemExit (ExitJson c))
  \/ fail_or_client e
  \/ (unbound_interface e
      /\ truthy (Switchport.interface_name m_args) = false
      /\ truthy (Switchport.interface_id m_args) = false)
  \/ missing_label Switchport.PORT_MODE (Switchport.mode m_args) e
  \/ bad_vlan (Switchport.access_vlan m_args) e
  \/ bad_vlan (Switchport.native_vlan m_args) e.

(** The ways a run of the CDP module can end. *)
Definition cdp_ending {D} `{SnmpHandler D}
    (m_args : Cdp.params) (e : exc) : Prop :=
  (exists c, e = SystemExit (ExitJson c))
  \/ fail_or_client e
  \/ (unbound_interface e
      /\ truthy (Cdp.interface_name m_args) = false
      /\ truthy (Cdp.interface_id m_args) = false)
  \/ missing_label Cdp.CDP_STATE (Cdp.cdp_global m_args) e
  \/ missing_label Cdp.CDP_STATE (Cdp.cdp_interface m_args) e.

(** ** A device that does not answer

    Every call of the client raises a timeout. *)
Module Down.
Inductive dev := Dead.

Definition timeout : exc :=
  Exception "SnmpError" "No SNMP response received before timeout".

#[global] Instance handler : SnmpHandler dev := {
  dev_connect _ _ := None;
  dev_get_value d _ := (inl timeout, d);
  dev_set d _ _ := (Some timeout, d);
  dev_getnext d _ := (inl timeout, d)
}.
End Down.

(** ** Runs in which every step returns *)

(** The run of the switchport module from [w] goes through: the session
    opens, the interface is bound, and each requested setting is encoded and
    reconciled; [c] is the OR of the settings' flags and [w3] the world at
    the end. *)
Definition switchport_applied {D} `{SnmpHandler D} (o : CiscoOids)
    (has_nelsnmp : bool) (m_args : Switchport.params)
    (w : world D) (c : bool) (w3 : world D) : Prop :=
  exists interface w0 w1 w2 c1 c2 c3,
    open_session has_nelsnmp (Switchport.conn m_args) w = (Ret tt, w)
    /\ bind_interface o (Switchport.interface_name m_args)
                      (Switchport.interface_id m_args) w
       = (Ret interface, w0)
    /\ flag (Switchport.mode m_args) (fun s => Switchport.PORT_MODE !! s)
            (vlanTrunkPortDynamicState o) interface w0 c1 w1
    /\ flag (Switchport.access_vlan m_args) py_int (vmVlan o) interface
            w1 c2 w2
    /\ flag (Switchport.native_vlan m_args) py_int
            (vlanTrunkPortNativeVlan o) interface w2 c3 w3
    /\ c = c1 || c2 || c3.

(** The same for the CDP module. *)
Definition cdp_applied {D} `{SnmpHandler D} (o : CiscoOids)
    (has_nelsnmp : bool) (m_args : Cdp.params)
    (w : world D) (c : bool) (w2 : world D) : Prop :=
  exists interface w0 w1 c1 c2,
    open_session has_nelsnmp (Cdp.conn m_args) w = (Ret tt, w)
    /\ bind_interface o (Cdp.interface_name m_args)
                      (Cdp.interface_id m_args) w
       = (Ret interface, w0)
    /\ flag_at (Cdp.cdp_global m_args) (fun s => Cdp.CDP_STATE !! s)
               (cdpGlobalRun o +:+ ".0") w0 c1 w1
    /\ flag (Cdp.cdp_interface m_args) (fun s => Cdp.CDP_STATE !! s)
            (cdpInterfaceEnable o) interface w1 c2 w2
    /\ c = c1 || c2.

(** What a second run needs of the device for a setting: if the setting
    is requested, its label is in the codec and the device already reads
    the encoded value at the setting's OID. *)
Definition needs_at {D} `{SnmpHandler D} (arg : option string)
    (codec : string -> option Z) (oid : string) (d : D) : Prop :=
  truthy arg = true ->
  exists v, codec (the arg) = Some v /\ settled d oid (VInt v).

(** A log without writes. *)
Definition no_SET (evs : list event) : Prop :=
  Forall (fun e => is_SET e = false) evs.

(** * Properties *)

Lemma py_eq_true (a b : value) : py_eq a b = true <-> a = b.
Proof.
  destruct a, b; simpl; rewrite ?bool_decide_eq_true; split;
    first [congruence | discriminate | idtac].
Qed.

Lemma py_eq_refl (a : value) : py_eq a a = true.
Proof. by apply py_eq_true. Qed.

Lemma changed_status_orb (changed has_changed : bool) :
  changed_status changed has_changed = changed || has_changed.
Proof. by destruct changed. Qed.

(** ** The read-compare-write cycle *)
Section Reconciler.
Context {D : Type} `{SnmpHandler D}.

(** The three ways through [set_state] after a read that returned. *)
Lemma set_state_equal (w : world D) oid desired cur d1 :
  dev_get_value (device w) oid = (inr cur, d1) ->
  py_eq cur desired = true ->
  set_state oid desired w
  = (Ret false, World d1 (trace w ++ [Event GET oid true])).
Proof.
  intros Hget Heq.
  unfold set_state, bind, try_except_Exception, get_value.
  rewrite Hget. simpl. by rewrite Heq.
Qed.

Lemma set_state_written (w : world D) oid desired cur d1 d2 :
  dev_get_value (device w) oid = (inr cur, d1) ->
  py_eq cur desired = false ->
  dev_set d1 oid desired = (None, d2) ->
  set_state oid desired w
  = (Ret true,
     World d2 (trace w ++ [Event GET oid true;
                           Event (SET desired) oid true])).
Proof.
  intros Hget Hne Hset.
  unfold set_state, bind, try_except_Exception, try_except,
    get_value, set_value.
  rewrite Hget. simpl. rewrite Hne. unfold bind. simpl.
  rewrite Hset. simpl. by rewrite <- app_assoc.
Qed.

Lemma set_state_refused (w : world D) oid desired cur d1 e d2 :
  dev_get_value (device w) oid = (inr cur, d1) ->
  py_eq cur desired = false ->
  dev_set d1 oid desired = (Some e, d2) ->
  set_state oid desired w
  = (Raise (SystemExit (FailJson "Unable to write to device")),
     World d2 (trace w ++ [Event GET oid true;
                           Event (SET desired) oid false])).
Proof.
  intros Hget Hne Hset.
  unfold set_state, bind, try_except_Exception, try_except,
    get_value, set_value.
  rewrite Hget. simpl. rewrite Hne. unfold bind. simpl.
  rewrite Hset. simpl. by rewrite <- app_assoc.
Qed.

Lemma set_state_settles (w w1 : world D) oid desired c :
  reads_are_pure -> reads_back ->
  set_state oid desired w = (Ret c, w1) ->
  exists cur, dev_get_value (device w1) oid = (inr cur, device w1)
              /\ py_eq cur desired = true.
Proof.
  intros Hpure Hback.
  unfold set_state, bind, try_except_Exception, try_except,
    get_value, set_value.
  pose proof (Hpure (device w) oid) as Hp.
  destruct (dev_get_value (device w) oid) as [[e|cur] d1] eqn:Hget;
    simpl in *; subst d1.
  - destruct (is_Exception e); discriminate.
  - destruct (py_eq cur desired) eqn:Heq.
    + intros [= <- <-]. simpl. eauto.
    + unfold bind. simpl.
      destruct (dev_set (device w) oid desired) as [[e|] d2] eqn:Hset;
        simpl; [discriminate|].
      intros [= <- <-]. simpl. exists desired.
      split; [by eapply Hback | apply py_eq_refl].
Qed.

Lemma again_settled (n : nat) (w : world D) oid desired cur :
  dev_get_value (device w) oid = (inr cur, device w) ->
  py_eq cur desired = true ->
  again n oid desired w
  = (Ret (replicate n false),
     World (device w) (trace w ++ replicate n (Event GET oid true))).
Proof.
  revert w. induction n as [|n IH]; intros w Hget Heq; simpl.
  - unfold ret. rewrite app_nil_r. by destruct w.
  - unfold bind at 1. rewrite (set_state_equal w oid desired cur _ Hget Heq).
    unfold bind at 1. rewrite IH by done. simpl.
    unfold ret. by rewrite <- app_assoc.
Qed.
End Reconciler.

(** C1. When the value read at [oid] equals the desired value, [set_state]
    returns [False] and the only request it sends is that read: no write.
    On a device whose reads are pure and whose accepted writes are read
    back, once one invocation has returned, any number of further
    invocations with the same OID and value return [False], send reads only
    and leave the device as it was. *)
Theorem set_state_idempotent {D : Type} `{SnmpHandler D} :
  (forall (w : world D) oid desired cur d1,
      dev_get_value (device w) oid = (inr cur, d1) ->
      py_eq cur desired = true ->
      set_state oid desired w
      = (Ret false, World d1 (trace w ++ [Event GET oid true])))
  /\ (reads_are_pure -> reads_back ->
      forall (w w1 : world D) oid desired c n,
        set_state oid desired w = (Ret c, w1) ->
        again n oid desired w1
        = (Ret (replicate n false),
           World (device w1)
                 (trace w1 ++ replicate n (Event GET oid true)))).
Proof.
  split.
  - intros. by eapply set_state_equal.
  - intros Hpure Hback w w1 oid desired c n Hrun.
    destruct (set_state_settles _ _ _ _ _ Hpure Hback Hrun) as (cur & Hget & Heq).
    by eapply again_settled.
Qed.

(** C2. When the value read differs from the desired value and the write
    returns, [set_state] returns [True] and sends exactly one write, of the
    desired value at that OID, after its read. *)
Theorem set_state_single_write {D : Type} `{SnmpHandler D}
    (w : world D) oid desired cur d1 d2 :
  dev_get_value (device w) oid = (inr cur, d1) ->
  py_eq cur desired = false ->
  dev_set d1 oid desired = (None, d2) ->
  exists evs,
    set_state oid desired w = (Ret true, World d2 (trace w ++ evs))
    /\ filter (fun e => is_SET e = true) evs = [Event (SET desired) oid true].
Proof.
  intros Hget Hne Hset.
  exists [Event GET oid true; Event (SET desired) oid true].
  split; [by eapply set_state_written | reflexivity].
Qed.

(** ** Interface name resolution *)

Lemma rsplit_dot_no_dot (s : string) :
  "."%char ∉ list_ascii_of_string s -> rsplit_dot s = (None, s).
Proof.
  induction s as [|c s IH]; simpl; [done|].
  intros Hnot. apply not_elem_of_cons in Hnot as [Hc Hs].
  rewrite (IH Hs).
  destruct (Ascii.eqb c ".") eqn:E; [|done].
  apply Ascii.eqb_eq in E. congruence.
Qed.

Lemma rsplit_dot_index (base idx : string) :
  "."%char ∉ list_ascii_of_string idx ->
  rsplit_dot (base +:+ "." +:+ idx) = (Some base, idx).
Proof.
  intros Hidx. induction base as [|c base IH].
  - change (rsplit_dot (String "." idx) = (Some "", idx)). simpl.
    by rewrite (rsplit_dot_no_dot idx Hidx).
  - change (rsplit_dot (String c (base +:+ "." +:+ idx))
            = (Some (String c base), idx)).
    simpl. by rewrite IH.
Qed.

(** The last component of [base.idx] is [idx]. *)
Lemma rsplit1_index (base idx : string) :
  "."%char ∉ list_ascii_of_string idx ->
  item_last (rsplit1 (base +:+ "." +:+ idx)) = idx.
Proof.
  intros Hidx. unfold rsplit1. by rewrite (rsplit_dot_index base idx Hidx).
Qed.

Lemma scan_varbinds_app name acc l1 l2 :
  scan_varbinds name acc (l1 ++ l2)
  = scan_varbinds name (scan_varbinds name acc l1) l2.
Proof. unfold scan_varbinds. by rewrite fold_left_app. Qed.

(** The nested loops visit the entries of the rows in order. *)
Lemma scan_vartable_concat name (t : vartable) acc :
  fold_left (scan_varbinds name) t acc = scan_varbinds name acc (concat t).
Proof.
  revert acc. induction t as [|row t IH]; intros acc; simpl; [done|].
  by rewrite IH, scan_varbinds_app.
Qed.

Lemma scan_varbinds_no_match name acc (l : list (string * value)) :
  Forall (fun e => e.2 <> VStr name) l -> scan_varbinds name acc l = acc.
Proof.
  induction 1 as [|[oid val] l Hne _ IH]; [done|].
  change ((oid, val) :: l) with ([(oid, val)] ++ l).
  rewrite scan_varbinds_app.
  transitivity (scan_varbinds name acc l); [f_equal | exact IH].
  unfold scan_varbinds. cbn [fold_left]. simpl in Hne.
  destruct (py_eq (VStr name) val) eqn:E; [|reflexivity].
  apply py_eq_true in E. congruence.
Qed.

Lemma scan_varbinds_last name acc pre oid post :
  Forall (fun e => e.2 <> VStr name) post ->
  scan_varbinds name acc (pre ++ (oid, VStr name) :: post)
  = Some (item_last (rsplit1 oid)).
Proof.
  intros Hpost. rewrite scan_varbinds_app.
  change ((oid, VStr name) :: post) with ([(oid, VStr name)] ++ post).
  rewrite scan_varbinds_app, (scan_varbinds_no_match _ _ _ Hpost).
  unfold scan_varbinds at 1. simpl. by rewrite bool_decide_eq_true_2.
Qed.

Section Resolver.
Context {D : Type} `{SnmpHandler D}.
Variable o : CiscoOids.

Lemma interface_by_name_found (w : world D) name t d1 pre oid post :
  dev_getnext (device w) (ifDescr o) = (inr t, d1) ->
  concat t = pre ++ (oid, VStr name) :: post ->
  Forall (fun e => e.2 <> VStr name) post ->
  interface_by_name o name w
  = (Ret (item_last (rsplit1 oid)),
     World d1 (trace w ++ [Event GETNEXT (ifDescr o) true])).
Proof.
  intros Hwalk Hcat Hpost.
  unfold interface_by_name, try_except_Exception, bind, getnext.
  rewrite Hwalk. simpl.
  unfold scan_vartable.
  by rewrite scan_vartable_concat, Hcat, (scan_varbinds_last _ _ _ _ _ Hpost).
Qed.

Lemma interface_by_name_missing (w : world D) name t d1 :
  dev_getnext (device w) (ifDescr o) = (inr t, d1) ->
  Forall (fun e => e.2 <> VStr name) (concat t) ->
  interface_by_name o name w
  = (Raise (SystemExit (FailJson "Unable to find interface")),
     World d1 (trace w ++ [Event GETNEXT (ifDescr o) true])).
Proof.
  intros Hwalk Hnone.
  unfold interface_by_name, try_except_Exception, bind, getnext.
  rewrite Hwalk. simpl.
  unfold scan_vartable.
  by rewrite scan_vartable_concat, (scan_varbinds_no_match _ _ _ Hnone).
Qed.

Lemma bind_interface_missing (w : world D) name id t d1 :
  truthy name = true ->
  dev_getnext (device w) (ifDescr o) = (inr t, d1) ->
  Forall (fun e => e.2 <> VStr (the name)) (concat t) ->
  bind_interface o name id w
  = (Raise (SystemExit (FailJson "Unable to find interface")),
     World d1 (trace w ++ [Event GETNEXT (ifDescr o) true])).
Proof.
  intros Hname Hwalk Hnone. unfold bind_interface. rewrite Hname.
  unfold bind at 1. unfold bind at 1.
  by rewrite (interface_by_name_missing _ _ _ _ Hwalk Hnone).
Qed.
End Resolver.

(** C3. Resolution by name walks the interface-description table once and
    returns the index (the last component of the OID) of the last entry
    whose value is the requested name: an entry [base.idx] with that value,
    followed by no other match, gives [idx].  With the single match
    ["Gi0/1"] at index 5 the result is 5, and with a second ["Gi0/1"] at
    index 7 later in the walk it is 7. *)
Theorem interface_by_name_last_match {D : Type} `{SnmpHandler D}
    (o : CiscoOids) :
  (forall (w : world D) name t d1 pre base idx post,
      dev_getnext (device w) (ifDescr o) = (inr t, d1) ->
      concat t = pre ++ (base +:+ "." +:+ idx, VStr name) :: post ->
      "."%char ∉ list_ascii_of_string idx ->
      Forall (fun e => e.2 <> VStr name) post ->
      interface_by_name o name w
      = (Ret idx, World d1 (trace w ++ [Event GETNEXT (ifDescr o) true])))
  /\ fst (run (interface_by_name Sim.cisco "Gi0/1")
            (Sim.Dev ∅ [[("1.3.6.1.2.1.2.2.1.2.5", VStr "Gi0/1")]] []))
     = Ret "5"
  /\ fst (run (interface_by_name Sim.cisco "Gi0/1")
            (Sim.Dev ∅ [[("1.3.6.1.2.1.2.2.1.2.5", VStr "Gi0/1")];
                        [("1.3.6.1.2.1.2.2.1.2.6", VStr "Gi0/2")];
                        [("1.3.6.1.2.1.2.2.1.2.7", VStr "Gi0/1")]] []))
     = Ret "7".
Proof.
  split; [|split; reflexivity].
  intros w name t d1 pre base idx post Hwalk Hcat Hidx Hpost.
  rewrite <- (rsplit1_index base idx Hidx).
  by eapply interface_by_name_found.
Qed.

(** C7. When no entry of the walked table has the requested name as its
    value (the empty table included), resolution returns no index: it ends
    the run with [fail_json(msg='Unable to find interface')], and so do both
    modules' [main] whenever [interface_name] is given. *)
Theorem interface_by_name_not_found {D : Type} `{SnmpHandler D}
    (o : CiscoOids) :
  (forall (w : world D) name t d1,
      dev_getnext (device w) (ifDescr o) = (inr t, d1) ->
      Forall (fun e => e.2 <> VStr name) (concat t) ->
      interface_by_name o name w
      = (Raise (SystemExit (FailJson "Unable to find interface")),
         World d1 (trace w ++ [Event GETNEXT (ifDescr o) true])))
  /\ (forall (w : world D) has_nelsnmp (m_args : Cdp.params) t d1,
      open_session has_nelsnmp (Cdp.conn m_args) w = (Ret tt, w) ->
      truthy (Cdp.interface_name m_args) = true ->
      dev_getnext (device w) (ifDescr o) = (inr t, d1) ->
      Forall (fun e => e.2 <> VStr (the (Cdp.interface_name m_args)))
             (concat t) ->
      Cdp.main o has_nelsnmp m_args w
      = (Raise (SystemExit (FailJson "Unable to find interface")),
         World d1 (trace w ++ [Event GETNEXT (ifDescr o) true])))
  /\ (forall (w : world D) has_nelsnmp (m_args : Switchport.params) t d1,
      open_session has_nelsnmp (Switchport.conn m_args) w = (Ret tt, w) ->
      truthy (Switchport.interface_name m_args) = true ->
      dev_getnext (device w) (ifDescr o) = (inr t, d1) ->
      Forall (fun e => e.2 <> VStr (the (Switchport.interface_name m_args)))
             (concat t) ->
      Switchport.main o has_nelsnmp m_args w
      = (Raise (SystemExit (FailJson "Unable to find interface")),
         World d1 (trace w ++ [Event GETNEXT (ifDescr o) true]))).
Proof.
  split; [|split].
  - intros. by eapply interface_by_name_missing.
  - intros w hn m_args t d1 Hopen Hname Hwalk Hnone.
    unfold Cdp.main. unfold bind at 1. rewrite Hopen.
    unfold bind at 1.
    by rewrite (bind_interface_missing o w _ _ t d1 Hname Hwalk Hnone).
  - intros w hn m_args t d1 Hopen Hname Hwalk Hnone.
    unfold Switchport.main. unfold bind at 1. rewrite Hopen.
    unfold bind at 1.
    by rewrite (bind_interface_missing o w _ _ t d1 Hname Hwalk Hnone).
Qed.

(** ** The value codec *)


(** C5, at the input where it fails.  The argument spec of the switchport
    module accepts the mode ["desireable"], which is no key of [PORT_MODE]
    (the table and the documentation spell it ["desirable"], which the
    argument spec refuses): a run with that mode ends in [KeyError] before
    any request for the setting is sent.  Every choice of the CDP module is
    a key of [CDP_STATE]. *)
Theorem mode_choice_missing_from_PORT_MODE :
  ("desireable" ∈ Switchport.mode_choices)
  /\ Switchport.PORT_MODE !! "desireable" = None
  /\ ("desirable" ∈ Switchport.mode_documented)
  /\ ("desirable" ∉ Switchport.mode_choices)
  /\ Switchport.choices_ok (Sim.port "desireable" (Some "5") None None None)
  /\ run (Switchport.main Sim.cisco true
            (Sim.port "desireable" (Some "5") None None None)) Sim.switch
     = (Raise (Exception "KeyError" "'desireable'"), World Sim.switch [])
  /\ (forall v, v ∈ Cdp.cdp_choices -> is_Some (Cdp.CDP_STATE !! v)).
Proof.
  split_and!.
  - by apply (bool_decide_unpack _).
  - by vm_compute.
  - by apply (bool_decide_unpack _).
  - by apply (bool_decide_unpack _).
  - exists "desireable". split; [done|]. by apply (bool_decide_unpack _).
  - by vm_compute.
  - intros v Hv. unfold Cdp.cdp_choices in Hv.
    apply elem_of_cons in Hv as [->|Hv]; [exists 1; by vm_compute|].
    apply list_elem_of_singleton in Hv as ->. exists 2. by vm_compute.
Qed.

(** *** [int] on VLAN ids *)




















(** ** Whole runs: what a computation sends, and how a refused write ends it *)

Lemma fail_fast_Raise {A B} (e : exc) (evs : list event) :
  fail_fast (A:=A) (Raise e) evs -> fail_fast (A:=B) (Raise e) evs.
Proof.
  intros [Hc|(pre & e' & -> & Hpre & He' & [= ->])]; [by left|].
  right. by exists pre, e'.
Qed.

Section Runs.
Context {D : Type} `{SnmpHandler D}.

Lemma bind_Ret {A B} (m : M D A) (k : A -> M D B) w a w1 :
  m w = (Ret a, w1) -> bind m k w = k a w1.
Proof. intros Hm. unfold bind. by rewrite Hm. Qed.

Lemma bind_Raise {A B} (m : M D A) (k : A -> M D B) w e w1 :
  m w = (Raise e, w1) -> bind m k w = (Raise e, w1).
Proof. intros Hm. unfold bind. by rewrite Hm. Qed.

Lemma emits_silent {A} (S : event -> Prop) (m : M D A) :
  (forall w, (m w).2 = w) -> emits S m.
Proof.
  intros Hm w. exists []. rewrite Hm, app_nil_r.
  split_and!; [done | constructor | left; constructor].
Qed.

Lemma emits_ret {A} S (a : A) : emits S (ret (D:=D) a).
Proof. by apply emits_silent. Qed.

Lemma emits_raise {A} S e : emits S (raise (D:=D) (A:=A) e).
Proof. by apply emits_silent. Qed.

Lemma emits_weaken {A} (S S' : event -> Prop) (m : M D A) :
  (forall e, S e -> S' e) -> emits S m -> emits S' m.
Proof.
  intros HS Hm w. destruct (Hm w) as (evs & Ht & Hall & Hff).
  exists evs. split_and!; [done | by eapply Forall_impl | done].
Qed.

Lemma emits_bind {A B} S (m : M D A) (k : A -> M D B) :
  emits S m -> (forall a, emits S (k a)) -> emits S (bind m k).
Proof.
  intros Hm Hk w. destruct (Hm w) as (e1 & Ht1 & Hall1 & Hff1).
  unfold bind. destruct (m w) as [[a|e] w1]; simpl in *.
  - destruct (Hk a w1) as (e2 & Ht2 & Hall2 & Hff2).
    assert (Hc1 : clean e1).
    { destruct Hff1 as [?|(? & ? & _ & _ & _ & ?)]; [done | discriminate]. }
    exists (e1 ++ e2). rewrite Ht2, Ht1, app_assoc.
    split_and!; [done | by apply Forall_app |].
    destruct Hff2 as [Hc2|(pre & e & -> & Hpre & He & Hr)].
    + left. by apply Forall_app.
    + right. exists (e1 ++ pre), e. rewrite app_assoc.
      split_and!; [done | by apply Forall_app | done | done].
  - exists e1. split_and!; [done | done | by eapply fail_fast_Raise].
Qed.

Lemma emits_try_except_Exception {A} S (body : M D A) handler :
  emits S body -> (forall e, emits S (handler e)) ->
  emits S (try_except_Exception body handler).
Proof.
  intros Hb Hh w. destruct (Hb w) as (e1 & Ht1 & Hall1 & Hff1).
  unfold try_except_Exception.
  destruct (body w) as [[a|e] w1]; simpl in *; [by exists e1|].
  destruct (is_Exception e) eqn:He; [|by exists e1].
  destruct (Hh e w1) as (e2 & Ht2 & Hall2 & Hff2).
  assert (Hc1 : clean e1).
  { destruct Hff1 as [?|(? & ? & _ & _ & _ & [= ->])]; [done | discriminate]. }
  exists (e1 ++ e2). rewrite Ht2, Ht1, app_assoc.
  split_and!; [done | by apply Forall_app |].
  destruct Hff2 as [Hc2|(pre & e' & -> & Hpre & He' & Hr)].
  - left. by apply Forall_app.
  - right. exists (e1 ++ pre), e'. rewrite app_assoc.
    split_and!; [done | by apply Forall_app | done | done].
Qed.

Lemma emits_when S b (m : M D unit) : emits S m -> emits S (when b m).
Proof. destruct b; [done|]. intros _. apply emits_ret. Qed.

Lemma emits_getnext S oid :
  (forall ok, S (Event GETNEXT oid ok)) -> emits S (getnext oid).
Proof.
  intros HS w. unfold getnext.
  destruct (dev_getnext (device w) oid) as [[e|t] d]; simpl;
    eexists [_]; (split_and!; [done | by repeat constructor |]);
    left; by repeat constructor.
Qed.

Lemma emits_set_state S oid desired :
  (forall ok, S (Event GET oid ok)) ->
  (forall ok, S (Event (SET desired) oid ok)) ->
  emits S (set_state oid desired).
Proof.
  intros Hget Hset w.
  unfold set_state, bind, try_except_Exception, try_except,
    get_value, set_value, fail_json, raise, ret.
  destruct (dev_get_value (device w) oid) as [[e|cur] d1]; simpl.
  - exists [Event GET oid false].
    destruct (is_Exception e); simpl;
      (split_and!; [done | by repeat constructor |]);
      left; by repeat constructor.
  - destruct (py_eq cur desired); simpl.
    + exists [Event GET oid true].
      split_and!; [done | by repeat constructor |].
      left; by repeat constructor.
    + destruct (dev_set d1 oid desired) as [[e|] d2]; simpl.
      * exists [Event GET oid true; Event (SET desired) oid false].
        rewrite <- app_assoc.
        split_and!; [done | by repeat constructor |].
        right. exists [Event GET oid true], (Event (SET desired) oid false).
        split_and!; [done | by repeat constructor | done | done].
      * exists [Event GET oid true; Event (SET desired) oid true].
        rewrite <- app_assoc.
        split_and!; [done | by repeat constructor |].
        left; by repeat constructor.
Qed.

Lemma emits_open_session S has_nelsnmp c :
  emits S (open_session has_nelsnmp c).
Proof.
  unfold open_session.
  repeat first
    [ apply emits_bind; [|intros _]
    | apply emits_when
    | apply emits_raise
    | apply emits_try_except_Exception; [|intros ?] ].
  apply emits_silent. intros w. unfold SnmpHandler_new.
  by destruct (dev_connect _ _).
Qed.

Lemma emits_interface_by_name S o name :
  (forall ok, S (Event GETNEXT (ifDescr o) ok)) ->
  emits S (interface_by_name o name).
Proof.
  intros HS. unfold interface_by_name.
  apply emits_try_except_Exception; [|intros ?; apply emits_raise].
  apply emits_bind; [by apply emits_getnext|]. intros t.
  destruct (scan_vartable name t); [apply emits_ret | apply emits_raise].
Qed.

Lemma emits_bind_interface S o name id :
  (forall ok, S (Event GETNEXT (ifDescr o) ok)) ->
  emits S (bind_interface o name id).
Proof.
  intros HS. unfold bind_interface.
  apply emits_bind; [|intros ?; apply emits_ret].
  destruct (truthy name); [|apply emits_ret].
  apply emits_bind; [by apply emits_interface_by_name|].
  intros ?; apply emits_ret.
Qed.

Lemma emits_local S name x : emits S (local (D:=D) name x).
Proof. destruct x; [apply emits_ret | apply emits_raise]. Qed.

Lemma emits_dict_get S d key : emits S (dict_get (D:=D) d key).
Proof.
  unfold dict_get. destruct (d !! key); [apply emits_ret | apply emits_raise].
Qed.

Lemma emits_int S s : emits S (Switchport.int (D:=D) s).
Proof.
  unfold Switchport.int.
  destruct (py_int s); [apply emits_ret | apply emits_raise].
Qed.
End Runs.

Lemma fail_fast_last {A} (r : result A) evs pre e post :
  fail_fast r evs -> evs = pre ++ e :: post -> failed_SET e = true ->
  r = Raise write_error /\ post = [].
Proof.
  intros [Hc|(pre' & e' & -> & Hpre & He' & ->)] Hevs He.
  - subst evs. apply Forall_app in Hc as [_ Hc]. inversion Hc; congruence.
  - split; [done|].
    assert (Hlen : (length pre' = length pre + length post)%nat).
    { apply (f_equal length) in Hevs. rewrite !length_app in Hevs.
      simpl in Hevs. lia. }
    destruct post as [|p post]; [done|]. exfalso.
    assert (Hin : pre' !! length pre = Some e).
    { rewrite <- (lookup_app_l pre' [e']) by (simpl in Hlen; lia).
      rewrite Hevs. by apply list_lookup_middle. }
    apply list_elem_of_lookup_2 in Hin.
    unfold clean in Hpre. rewrite Forall_forall in Hpre.
    specialize (Hpre e Hin). congruence.
Qed.

Section SwitchportRuns.
Context {D : Type} `{SnmpHandler D}.
Variable o : CiscoOids.
Variable has_nelsnmp : bool.
Import Switchport.

Lemma emits_setting (arg : option string) base (codec : string -> M D Z)
    interface has_changed :
  (forall S s, emits S (codec s)) ->
  emits (belongs arg base)
    (if truthy arg then
       i <- local "interface" interface ;;
       let oid := base +:+ "." +:+ i in
       desired_state <- codec (the arg) ;;
       changed <- set_state oid (VInt desired_state) ;;
       ret (changed_status changed has_changed)
     else ret has_changed).
Proof.
  intros Hcodec. destruct (truthy arg) eqn:Harg; [|apply emits_ret].
  apply emits_bind; [apply emits_local|]. intros i.
  apply emits_bind; [apply Hcodec|]. intros v.
  apply emits_bind; [|intros ?; apply emits_ret].
  apply emits_set_state; intros ok; (split_and!; [done | done | by exists i]).
Qed.

Lemma emits_main m_args :
  emits (requested o m_args) (main o has_nelsnmp m_args).
Proof.
  unfold main.
  apply emits_bind; [apply emits_open_session|]. intros _.
  apply emits_bind; [apply emits_bind_interface; intros; by left|].
  intros interface.
  apply emits_bind.
  { eapply emits_weaken; [|apply emits_setting; intros; apply emits_dict_get].
    intros e He. right. by left. }
  intros h1. apply emits_bind.
  { eapply emits_weaken; [|apply emits_setting; intros; apply emits_int].
    intros e He. right. right. by left. }
  intros h2. apply emits_bind.
  { eapply emits_weaken; [|apply emits_setting; intros; apply emits_int].
    intros e He. right. right. by right. }
  intros h3. apply emits_raise.
Qed.

Ltac flag_block :=
  intros Hflag; unfold flag in Hflag;
  unfold set_mode, set_access_vlan, set_native_vlan;
  match type of Hflag with
  | if truthy ?arg then _ else _ =>
      destruct (truthy arg);
      [ destruct Hflag as (i & v & -> & Hv & Hset);
        cbv beta in Hv;
        unfold dict_get, int, local; rewrite Hv;
        unfold bind, ret; cbv beta iota zeta; rewrite Hset;
        by rewrite changed_status_orb
      | by destruct Hflag as [-> ->] ]
  end.

(** Each block adds the flag of its setting to [has_changed]. *)
Lemma set_mode_flag m_args interface has_changed w c w' :
  flag (mode m_args) (fun s => PORT_MODE !! s)
       (vlanTrunkPortDynamicState o) interface w c w' ->
  set_mode o m_args interface has_changed w = (Ret (c || has_changed), w').
Proof. flag_block. Qed.

Lemma set_access_vlan_flag m_args interface has_changed w c w' :
  flag (access_vlan m_args) py_int (vmVlan o) interface w c w' ->
  set_access_vlan o m_args interface has_changed w
  = (Ret (c || has_changed), w').
Proof. flag_block. Qed.

Lemma set_native_vlan_flag m_args interface has_changed w c w' :
  flag (native_vlan m_args) py_int (vlanTrunkPortNativeVlan o) interface
       w c w' ->
  set_native_vlan o m_args interface has_changed w
  = (Ret (c || has_changed), w').
Proof. flag_block. Qed.


End SwitchportRuns.

Section CdpRuns.
Context {D : Type} `{SnmpHandler D}.
Variable o : CiscoOids.
Variable has_nelsnmp : bool.
Import Cdp.

Lemma emits_set_cdp_global m_args has_changed :
  emits (belongs (cdp_global m_args) (cdpGlobalRun o))
        (set_cdp_global o m_args has_changed).
Proof.
  unfold set_cdp_global.
  destruct (truthy (cdp_global m_args)) eqn:Harg; [|apply emits_ret].
  apply emits_bind; [apply emits_dict_get|]. intros v.
  apply emits_bind; [|intros ?; apply emits_ret].
  apply emits_set_state; intros ok;
    (split_and!; [done | done | by exists "0"]).
Qed.

Lemma emits_set_cdp_interface m_args interface has_changed :
  emits (belongs (cdp_interface m_args) (cdpInterfaceEnable o))
        (set_cdp_interface o m_args interface has_changed).
Proof.
  unfold set_cdp_interface.
  destruct (truthy (cdp_interface m_args)) eqn:Harg; [|apply emits_ret].
  apply emits_bind; [apply emits_local|]. intros i.
  apply emits_bind; [apply emits_dict_get|]. intros v.
  apply emits_bind; [|intros ?; apply emits_ret].
  apply emits_set_state; intros ok; (split_and!; [done | done | by exists i]).
Qed.

Lemma emits_cdp_main m_args :
  emits (cdp_requested o m_args) (main o has_nelsnmp m_args).
Proof.
  unfold main.
  apply emits_bind; [apply emits_open_session|]. intros _.
  apply emits_bind; [apply emits_bind_interface; intros; by left|].
  intros interface.
  apply emits_bind.
  { eapply emits_weaken; [|apply emits_set_cdp_global].
    intros e He. right. by left. }
  intros h1. apply emits_bind.
  { eapply emits_weaken; [|apply emits_set_cdp_interface].
    intros e He. right. by right. }
  intros h2. apply emits_raise.
Qed.
End CdpRuns.

(** What a run from an empty log sent is what [emits] speaks of. *)
Lemma emits_run {D A} (S : event -> Prop) (m : M D A) (d : D) :
  emits S m ->
  Forall S (trace (run m d).2) /\ fail_fast (run m d).1 (trace (run m d).2).
Proof.
  intros Hm. destruct (Hm (World d [])) as (evs & Ht & Hall & Hff).
  unfold run. simpl in Ht. by rewrite Ht.
Qed.

(** C8. [changed_status] is the logical OR of its arguments, and the
    [changed] that the switchport module exits with is the OR of the flags
    of its three settings, each flag being what [set_state] returned for a
    requested setting and [False] for one not requested.  With
    [mode=access] changed and [access_vlan=12] unchanged the run exits with
    [changed = True]. *)
Theorem changed_is_or_of_flags {D : Type} `{SnmpHandler D}
    (o : CiscoOids) (has_nelsnmp : bool) :
  (forall changed has_changed,
      changed_status changed has_changed = changed || has_changed)
  /\ (forall (m_args : Switchport.params) (w w0 w1 w2 w3 : world D)
             interface c1 c2 c3,
      open_session has_nelsnmp (Switchport.conn m_args) w = (Ret tt, w) ->
      bind_interface o (Switchport.interface_name m_args)
                     (Switchport.interface_id m_args) w
      = (Ret interface, w0) ->
      flag (Switchport.mode m_args) (fun s => Switchport.PORT_MODE !! s)
           (vlanTrunkPortDynamicState o) interface w0 c1 w1 ->
      flag (Switchport.access_vlan m_args) py_int (vmVlan o) interface
           w1 c2 w2 ->
      flag (Switchport.native_vlan m_args) py_int
           (vlanTrunkPortNativeVlan o) interface w2 c3 w3 ->
      Switchport.main o has_nelsnmp m_args w
      = (Raise (SystemExit (ExitJson (c1 || c2 || c3))), w3))
  /\ (let m_args := Sim.port "access" (Some "5") None (Some "12") None in
      let w0 := World Sim.switch [] in
      exists w1 w2,
        flag (Switchport.mode m_args) (fun s => Switchport.PORT_MODE !! s)
             (vlanTrunkPortDynamicState Sim.cisco) (Some "5") w0 true w1
        /\ flag (Switchport.access_vlan m_args) py_int (vmVlan Sim.cisco)
                (Some "5") w1 false w2
        /\ Switchport.main Sim.cisco true m_args w0
           = (Raise (SystemExit (ExitJson true)), w2)).
Proof.
  split_and!.
  - apply changed_status_orb.
  - intros m_args w w0 w1 w2 w3 interface c1 c2 c3 Hopen Hif H1 H2 H3.
    unfold Switchport.main.
    rewrite (bind_Ret _ _ _ _ _ Hopen), (bind_Ret _ _ _ _ _ Hif).
    rewrite (bind_Ret _ _ _ _ _
               (set_mode_flag o m_args interface false _ _ _ H1)).
    rewrite (bind_Ret _ _ _ _ _
               (set_access_vlan_flag o m_args interface _ _ _ _ H2)).
    rewrite (bind_Ret _ _ _ _ _
               (set_native_vlan_flag o m_args interface _ _ _ _ H3)).
    unfold exit_json, raise. by destruct c1, c2, c3.
  - eexists _, _. split_and!.
    + exists "5", 2. split_and!; [done | by vm_compute | by vm_compute].
    + exists "5", 12. split_and!; [done | by vm_compute | by vm_compute].
    + by vm_compute.
Qed.

(** C6. A write that the client raises on ends [set_state] with
    [fail_json(msg='Unable to write to device')].  In every run of either
    module a refused write is the last request sent, and the run's result
    is that failure: no later setting is attempted and nothing is sent to
    undo the earlier ones.  When the second of three settings is refused,
    the log ends with that write and the device is left as the write left
    it; on the simulated switch the mode written first stays written. *)
Theorem write_failure_aborts {D : Type} `{SnmpHandler D}
    (o : CiscoOids) (has_nelsnmp : bool) :
  (forall (w : world D) oid desired cur d1 e d2,
      dev_get_value (device w) oid = (inr cur, d1) ->
      py_eq cur desired = false ->
      dev_set d1 oid desired = (Some e, d2) ->
      set_state oid desired w
      = (Raise write_error,
         World d2 (trace w ++ [Event GET oid true;
                               Event (SET desired) oid false])))
  /\ (forall (m_args : Switchport.params) (d : D) pre e post,
      trace (run (Switchport.main o has_nelsnmp m_args) d).2
      = pre ++ e :: post ->
      failed_SET e = true ->
      (run (Switchport.main o has_nelsnmp m_args) d).1 = Raise write_error
      /\ post = [])
  /\ (forall (m_args : Cdp.params) (d : D) pre e post,
      trace (run (Cdp.main o has_nelsnmp m_args) d).2 = pre ++ e :: post ->
      failed_SET e = true ->
      (run (Cdp.main o has_nelsnmp m_args) d).1 = Raise write_error
      /\ post = [])
  /\ (forall (m_args : Switchport.params) (w w0 w1 : world D)
             i c1 z cur d1 e d2,
      open_session has_nelsnmp (Switchport.conn m_args) w = (Ret tt, w) ->
      bind_interface o (Switchport.interface_name m_args)
                     (Switchport.interface_id m_args) w
      = (Ret (Some i), w0) ->
      flag (Switchport.mode m_args) (fun s => Switchport.PORT_MODE !! s)
           (vlanTrunkPortDynamicState o) (Some i) w0 c1 w1 ->
      truthy (Switchport.access_vlan m_args) = true ->
      py_int (the (Switchport.access_vlan m_args)) = Some z ->
      dev_get_value (device w1) (vmVlan o +:+ "." +:+ i) = (inr cur, d1) ->
      py_eq cur (VInt z) = false ->
      dev_set d1 (vmVlan o +:+ "." +:+ i) (VInt z) = (Some e, d2) ->
      truthy (Switchport.native_vlan m_args) = true ->
      Switchport.main o has_nelsnmp m_args w
      = (Raise write_error,
         World d2 (trace w1
                   ++ [Event GET (vmVlan o +:+ "." +:+ i) true;
                       Event (SET (VInt z)) (vmVlan o +:+ "." +:+ i) false])))
  /\ (let locked :=
        Sim.Dev (Sim.mib Sim.switch) (Sim.if_table Sim.switch)
                ["1.3.6.1.4.1.9.9.68.1.2.2.1.2.5"] in
      run (Switchport.main Sim.cisco true
             (Sim.port "access" (Some "5") None (Some "20") (Some "30")))
          locked
      = (Raise write_error,
         World (Sim.Dev (<["1.3.6.1.4.1.9.9.46.1.6.1.1.13.5" := VInt 2]>
                           (Sim.mib Sim.switch))
                        (Sim.if_table Sim.switch)
                        ["1.3.6.1.4.1.9.9.68.1.2.2.1.2.5"])
               [Event GET "1.3.6.1.4.1.9.9.46.1.6.1.1.13.5" true;
                Event (SET (VInt 2)) "1.3.6.1.4.1.9.9.46.1.6.1.1.13.5" true;
                Event GET "1.3.6.1.4.1.9.9.68.1.2.2.1.2.5" true;
                Event (SET (VInt 20)) "1.3.6.1.4.1.9.9.68.1.2.2.1.2.5"
                      false])).
Proof.
  split_and!.
  - intros. by eapply set_state_refused.
  - intros m_args d pre e post Ht He.
    destruct (emits_run _ _ d (emits_main o has_nelsnmp m_args)) as [_ Hff].
    by eapply fail_fast_last.
  - intros m_args d pre e post Ht He.
    destruct (emits_run _ _ d (emits_cdp_main o has_nelsnmp m_args)) as [_ Hff].
    by eapply fail_fast_last.
  - intros m_args w w0 w1 i c1 z cur d1 e d2
      Hopen Hif H1 Harg Hz Hget Hne Hset _.
    unfold Switchport.main.
    rewrite (bind_Ret _ _ _ _ _ Hopen), (bind_Ret _ _ _ _ _ Hif).
    rewrite (bind_Ret _ _ _ _ _
               (set_mode_flag o m_args (Some i) false _ _ _ H1)).
    apply bind_Raise.
    unfold Switchport.set_access_vlan, Switchport.int, local.
    rewrite Harg, Hz. unfold bind at 1. unfold ret at 1.
    unfold bind at 1. unfold ret at 1. cbv beta iota zeta.
    apply bind_Raise. by eapply set_state_refused.
  - by vm_compute.
Qed.

(** C10. A setting whose argument is not given (or is empty) is skipped
    whole: its block returns [has_changed] as it came and sends nothing.
    With a catalog whose entries name disjoint subtrees, no read and no
    write of a run addresses the OID of such a setting: [vmVlan.i] when
    [access_vlan] is not given, [vlanTrunkPortNativeVlan.i] when
    [native_vlan] is not given, [cdpGlobalRun.0] when [cdp_global] is not
    given and [cdpInterfaceEnable.i] when [cdp_interface] is not given. *)
Theorem unrequested_settings_untouched {D : Type} `{SnmpHandler D}
    (o : CiscoOids) (has_nelsnmp : bool) :
  (forall (m_args : Switchport.params) interface has_changed (w : world D),
      (truthy (Switchport.access_vlan m_args) = false ->
       Switchport.set_access_vlan o m_args interface has_changed w
       = (Ret has_changed, w))
      /\ (truthy (Switchport.native_vlan m_args) = false ->
          Switchport.set_native_vlan o m_args interface has_changed w
          = (Ret has_changed, w)))
  /\ (forall (m_args : Cdp.params) interface has_changed (w : world D),
      (truthy (Cdp.cdp_global m_args) = false ->
       Cdp.set_cdp_global o m_args has_changed w = (Ret has_changed, w))
      /\ (truthy (Cdp.cdp_interface m_args) = false ->
          Cdp.set_cdp_interface o m_args interface has_changed w
          = (Ret has_changed, w)))
  /\ (catalog_separate o ->
      forall (m_args : Switchport.params) (d : D) e i,
        e ∈ trace (run (Switchport.main o has_nelsnmp m_args) d).2 ->
        ev_op e <> GETNEXT ->
        (truthy (Switchport.access_vlan m_args) = false ->
         ev_oid e <> vmVlan o +:+ "." +:+ i)
        /\ (truthy (Switchport.native_vlan m_args) = false ->
            ev_oid e <> vlanTrunkPortNativeVlan o +:+ "." +:+ i))
  /\ (catalog_separate o ->
      forall (m_args : Cdp.params) (d : D) e i,
        e ∈ trace (run (Cdp.main o has_nelsnmp m_args) d).2 ->
        ev_op e <> GETNEXT ->
        (truthy (Cdp.cdp_global m_args) = false ->
         ev_oid e <> cdpGlobalRun o +:+ ".0")
        /\ (truthy (Cdp.cdp_interface m_args) = false ->
            ev_oid e <> cdpInterfaceEnable o +:+ "." +:+ i)).
Proof.
  split_and!.
  - intros m_args interface h w.
    unfold Switchport.set_access_vlan, Switchport.set_native_vlan.
    split; by intros ->.
  - intros m_args interface h w.
    unfold Cdp.set_cdp_global, Cdp.set_cdp_interface.
    split; by intros ->.
  - intros (_ & Hda & Hdn & Han) m_args d e i Hin Hop.
    destruct (emits_run _ _ d (emits_main o has_nelsnmp m_args)) as [Hall _].
    rewrite Forall_forall in Hall. specialize (Hall e Hin).
    destruct Hall as [Hnext|[(_ & _ & x & Hx)|[(Ha & _ & x & Hx)
                                              |(Hn & _ & x & Hx)]]];
      [done|..]; rewrite Hx; split; intros Harg; try congruence.
    + apply Hda.
    + apply Hdn.
    + apply Han.
    + intros Heq. by apply (Han i x).
  - intros (Hgi & _) m_args d e i Hin Hop.
    destruct (emits_run _ _ d (emits_cdp_main o has_nelsnmp m_args))
      as [Hall _].
    rewrite Forall_forall in Hall. specialize (Hall e Hin).
    destruct Hall as [Hnext|[(Hg & _ & x & Hx)|(Hi & _ & x & Hx)]];
      [done|..]; rewrite Hx; split; intros Harg; try congruence.
    + apply Hgi.
    + intros Heq. apply (Hgi "0" x). symmetry. exact Heq.
Qed.


(** ** The simulated switch obeys the device laws *)

Lemma sim_reads_are_pure : reads_are_pure (D:=Sim.dev).
Proof. intros d oid. reflexivity. Qed.

Lemma sim_reads_back : reads_back (D:=Sim.dev).
Proof.
  intros d d' oid v. simpl. case_bool_decide; [discriminate|].
  intros [= <-]. simpl. by rewrite lookup_insert_eq.
Qed.

Lemma sim_catalog_separate : catalog_separate Sim.cisco.
Proof.
  repeat split; intros x y Heq; vm_compute in Heq; discriminate.
Qed.

(** ** Instances on the simulated switch *)

Lemma set_state_idempotent_witness :
  set_state "1.3.6.1.4.1.9.9.23.1.3.1.0" (VInt 1) (World Sim.switch [])
  = (Ret false,
     World Sim.switch [Event GET "1.3.6.1.4.1.9.9.23.1.3.1.0" true])
  /\ (let w1 := (run (set_state "1.3.6.1.4.1.9.9.23.1.3.1.0" (VInt 2))
                     Sim.switch).2 in
      again 3%nat "1.3.6.1.4.1.9.9.23.1.3.1.0" (VInt 2) w1
      = (Ret [false; false; false],
         World (device w1)
               (trace w1
                ++ replicate 3%nat
                     (Event GET "1.3.6.1.4.1.9.9.23.1.3.1.0" true)))).
Proof.
  destruct (@set_state_idempotent Sim.dev Sim.handler) as [Ha Hb]. split.
  - apply (Ha (World Sim.switch []) "1.3.6.1.4.1.9.9.23.1.3.1.0"
              (VInt 1) (VInt 1) Sim.switch); by vm_compute.
  - apply (Hb sim_reads_are_pure sim_reads_back (World Sim.switch []) _
              "1.3.6.1.4.1.9.9.23.1.3.1.0" (VInt 2) true 3%nat).
    by vm_compute.
Defined.

Lemma set_state_single_write_witness :
  py_eq (VInt 1) (VInt 2) = false
  /\ exists evs,
      set_state "1.3.6.1.4.1.9.9.23.1.3.1.0" (VInt 2) (World Sim.switch [])
      = (Ret true,
         World (Sim.Dev (<["1.3.6.1.4.1.9.9.23.1.3.1.0" := VInt 2]>
                           (Sim.mib Sim.switch))
                        (Sim.if_table Sim.switch) [])
               ([] ++ evs))
      /\ filter (fun e => is_SET e = true) evs
         = [Event (SET (VInt 2)) "1.3.6.1.4.1.9.9.23.1.3.1.0" true].
Proof.
  split; [done|].
  apply (set_state_single_write (World Sim.switch [])
           "1.3.6.1.4.1.9.9.23.1.3.1.0" (VInt 2) (VInt 1) Sim.switch);
    by vm_compute.
Defined.

Lemma interface_by_name_last_match_witness :
  interface_by_name Sim.cisco "Gi0/1" (World Sim.twins [])
  = (Ret "7",
     World Sim.twins ([] ++ [Event GETNEXT "1.3.6.1.2.1.2.2.1.2" true])).
Proof.
  destruct (@interface_by_name_last_match Sim.dev Sim.handler Sim.cisco)
    as [Hlast _].
  apply (Hlast (World Sim.twins []) "Gi0/1" (Sim.if_table Sim.twins)
           Sim.twins
           [("1.3.6.1.2.1.2.2.1.2.5", VStr "Gi0/1");
            ("1.3.6.1.2.1.2.2.1.2.6", VStr "Gi0/2")]
           "1.3.6.1.2.1.2.2.1.2" "7"
           [("1.3.6.1.2.1.2.2.1.2.8", VStr "Gi0/3")]).
  - reflexivity.
  - reflexivity.
  - by apply (bool_decide_unpack _).
  - by apply (bool_decide_unpack _).
Defined.

Lemma interface_by_name_not_found_witness :
  Switchport.main Sim.cisco true
    (Sim.port "trunk" None (Some "Gi0/9") None None) (World Sim.switch [])
  = (Raise (SystemExit (FailJson "Unable to find interface")),
     World Sim.switch ([] ++ [Event GETNEXT "1.3.6.1.2.1.2.2.1.2" true]))
  /\ interface_by_name Sim.cisco "Gi0/1" (World (Sim.Dev ∅ [] []) [])
     = (Raise (SystemExit (FailJson "Unable to find interface")),
        World (Sim.Dev ∅ [] [])
              ([] ++ [Event GETNEXT "1.3.6.1.2.1.2.2.1.2" true])).
Proof.
  destruct (@interface_by_name_not_found Sim.dev Sim.handler Sim.cisco)
    as (Hblock & _ & Hmain).
  split.
  - apply (Hmain (World Sim.switch []) true
             (Sim.port "trunk" None (Some "Gi0/9") None None)
             (Sim.if_table Sim.switch)).
    + reflexivity.
    + reflexivity.
    + reflexivity.
    + by apply (bool_decide_unpack _).
  - apply (Hblock (World (Sim.Dev ∅ [] []) []) "Gi0/1" []).
    + reflexivity.
    + constructor.
Defined.


Lemma changed_is_or_of_flags_witness :
  exists w3,
    Switchport.main Sim.cisco true
      (Sim.port "access" (Some "5") None (Some "12") None)
      (World Sim.switch [])
    = (Raise (SystemExit (ExitJson (true || false || false))), w3).
Proof.
  destruct (@changed_is_or_of_flags Sim.dev Sim.handler Sim.cisco true)
    as (_ & Hmain & _).
  eexists.
  eapply (Hmain (Sim.port "access" (Some "5") None (Some "12") None)
            (World Sim.switch []) (World Sim.switch []) _ _ _
            (Some "5") true false false).
  - reflexivity.
  - reflexivity.
  - exists "5", 2. split_and!; [done | by vm_compute | by vm_compute].
  - exists "5", 12. split_and!; [done | by vm_compute | by vm_compute].
  - split; reflexivity.
Defined.

Lemma write_failure_aborts_witness :
  let locked :=
    Sim.Dev (Sim.mib Sim.switch) (Sim.if_table Sim.switch)
            ["1.3.6.1.4.1.9.9.68.1.2.2.1.2.5"] in
  let m_args := Sim.port "access" (Some "5") None (Some "20") (Some "30") in
  (run (Switchport.main Sim.cisco true m_args) locked).1 = Raise write_error
  /\ (exists (w1 : world Sim.dev) d2,
        Switchport.main Sim.cisco true m_args (World locked [])
        = (Raise write_error,
           World d2
             (trace w1
              ++ [Event GET (vmVlan Sim.cisco +:+ "." +:+ "5") true;
                  Event (SET (VInt 20)) (vmVlan Sim.cisco +:+ "." +:+ "5")
                        false]))).
Proof.
  intros locked m_args.
  destruct (@write_failure_aborts Sim.dev Sim.handler Sim.cisco true)
    as (_ & Hlast & _ & Hsecond & _).
  split.
  - apply (Hlast m_args locked
             [Event GET "1.3.6.1.4.1.9.9.46.1.6.1.1.13.5" true;
              Event (SET (VInt 2)) "1.3.6.1.4.1.9.9.46.1.6.1.1.13.5" true;
              Event GET "1.3.6.1.4.1.9.9.68.1.2.2.1.2.5" true]
             (Event (SET (VInt 20)) "1.3.6.1.4.1.9.9.68.1.2.2.1.2.5" false)
             []); by vm_compute.
  - eexists _, _.
    eapply (Hsecond m_args (World locked []) (World locked []) _
              "5" true 20 (VInt 12) _ (Exception "SnmpError" "notWritable")).
    + reflexivity.
    + reflexivity.
    + exists "5", 2. split_and!; [done | by vm_compute | by vm_compute].
    + reflexivity.
    + reflexivity.
    + by vm_compute.
    + reflexivity.
    + by vm_compute.
    + reflexivity.
Defined.

Lemma unrequested_settings_untouched_witness :
  let m_args := Sim.port "access" (Some "5") None None None in
  let e := Event (SET (VInt 2)) "1.3.6.1.4.1.9.9.46.1.6.1.1.13.5" true in
  (e ∈ trace (run (Switchport.main Sim.cisco true m_args) Sim.switch).2)
  /\ ev_oid e <> vmVlan Sim.cisco +:+ "." +:+ "5"
  /\ ev_oid e <> vlanTrunkPortNativeVlan Sim.cisco +:+ "." +:+ "5".
Proof.
  intros m_args e.
  destruct (@unrequested_settings_untouched Sim.dev Sim.handler
              Sim.cisco true) as (_ & _ & Hport & _).
  assert (Hin : e ∈ trace (run (Switchport.main Sim.cisco true m_args)
                               Sim.switch).2)
    by (by apply (bool_decide_unpack _)).
  split; [exact Hin|].
  destruct (Hport sim_catalog_separate m_args Sim.switch e "5" Hin)
    as [Ha Hn]; [discriminate|].
  split; [by apply Ha | by apply Hn].
Defined.

(** * Further properties of the two modules *)

(** ** The start of [main] *)
Section Start.
Context {D : Type} `{SnmpHandler D}.

(** [open_session] as one decision list. *)
Lemma open_session_cases has_nelsnmp c (w : world D) :
  open_session has_nelsnmp c w
  = if negb has_nelsnmp
    then (Raise (SystemExit
                   (FailJson "Missing required nelsnmp module (check docs)")),
          w)
    else if bool_decide (version c = Some "2c")
            && bool_decide (community c = None)
    then (Raise (SystemExit
                   (FailJson "Community not set when using snmp version 2")),
          w)
    else if bool_decide (version c = Some "3")
            && bool_decide (username c = None)
    then (Raise (SystemExit
                   (FailJson "Username not set when using snmp version 3")),
          w)
    else if bool_decide (version c = Some "3")
            && bool_decide (level c = Some "authPriv")
            && bool_decide (privacy c = None)
    then (Raise (SystemExit
                   (FailJson "Privacy algorithm not set when using authPriv")),
          w)
    else match dev_connect (device w) (nelsnmp_args c) with
         | None => (Ret tt, w)
         | Some e =>
             if is_Exception e
             then (Raise (SystemExit (FailJson (str_exc e))), w)
             else (Raise e, w)
         end.
Proof.
  unfold open_session, when, bind, fail_json, raise, ret,
    try_except_Exception, SnmpHandler_new.
  destruct has_nelsnmp; cbn [negb]; [|done].
  destruct (bool_decide (version c = Some "2c"));
    destruct (bool_decide (community c = None));
    destruct (bool_decide (version c = Some "3"));
    destruct (bool_decide (username c = None));
    destruct (bool_decide (level c = Some "authPriv"));
    destruct (bool_decide (privacy c = None));
    cbn [andb device]; try reflexivity;
    destruct (dev_connect (device w) (nelsnmp_args c)) as [e|];
    try reflexivity; by destruct (is_Exception e).
Qed.

Lemma open_session_world has_nelsnmp c (w : world D) :
  (open_session has_nelsnmp c w).2 = w.
Proof.
  rewrite open_session_cases.
  destruct (negb _); [done|].
  do 2 (destruct (_ && _); [done|]). destruct (_ && _ && _); [done|].
  destruct (dev_connect _ _) as [e|]; [by destruct (is_Exception e) | done].
Qed.

Lemma open_session_returns_iff has_nelsnmp c (w w' : world D) :
  open_session has_nelsnmp c w = (Ret tt, w')
  <-> has_nelsnmp = true /\ credentials_ok c
      /\ dev_connect (device w) (nelsnmp_args c) = None /\ w' = w.
Proof.
  rewrite open_session_cases. unfold credentials_ok.
  destruct has_nelsnmp; cbn [negb]; [|split; [done | by intros [? _]]].
  destruct (dev_connect (device w) (nelsnmp_args c)) as [e|] eqn:Hk.
  { split; [|by intros (_ & _ & ? & _)].
    do 2 (destruct (_ && _); [done|]). destruct (_ && _ && _); [done|].
    by destruct (is_Exception e). }
  destruct (bool_decide (version c = Some "2c")
            && bool_decide (community c = None)) eqn:E1.
  { split; [done|]. intros (_ & [Hc _] & _).
    apply andb_true_iff in E1 as [Hv Hn].
    apply bool_decide_eq_true in Hv, Hn. by destruct (Hc Hv). }
  destruct (bool_decide (version c = Some "3")
            && bool_decide (username c = None)) eqn:E2.
  { split; [done|]. intros (_ & [_ Hc] & _).
    apply andb_true_iff in E2 as [Hv Hn].
    apply bool_decide_eq_true in Hv, Hn. by destruct (Hc Hv) as [Hu _]. }
  destruct (bool_decide (version c = Some "3")
            && bool_decide (level c = Some "authPriv")
            && bool_decide (privacy c = None)) eqn:E3.
  { split; [done|]. intros (_ & [_ Hc] & _).
    apply andb_true_iff in E3 as [E3 Hn].
    apply andb_true_iff in E3 as [Hv Hl].
    apply bool_decide_eq_true in Hv, Hl, Hn.
    destruct (Hc Hv) as [_ Hp]. by destruct (Hp Hl). }
  split; [|by intros (_ & _ & _ & ->)].
  intros [= <-]. split_and!; try done.
  - intros Hv Hn. by rewrite !bool_decide_eq_true_2 in E1.
  - intros Hv. split.
    + intros Hn. by rewrite !bool_decide_eq_true_2 in E2.
    + intros Hl Hn. by rewrite !bool_decide_eq_true_2 in E3.
Qed.
End Start.

(** X1. The start of [main] returns, with [dev] constructed, exactly when
    nelsnmp was imported, the credential rules hold (version 2c has a
    community; version 3 has a username and, at level authPriv, a privacy
    algorithm) and the constructor of [SnmpHandler] returns; it then has
    sent nothing and left the device as it was. *)
Theorem session_opens_iff {D : Type} `{SnmpHandler D}
    has_nelsnmp c (w w' : world D) :
  open_session has_nelsnmp c w = (Ret tt, w')
  <-> has_nelsnmp = true /\ credentials_ok c
      /\ dev_connect (device w) (nelsnmp_args c) = None /\ w' = w.
Proof. apply open_session_returns_iff. Qed.

(** X2. Each way the start of [main] fails has its message: nelsnmp
    missing, version 2c without community, version 3 without username,
    level authPriv without privacy algorithm, and an [Exception] of the
    [SnmpHandler] constructor, reported with its text.  Either module then
    ends with that failure, having sent nothing. *)
Theorem start_failure_messages {D : Type} `{SnmpHandler D}
    (o : CiscoOids) (w : world D) :
  (forall c,
      open_session false c w
      = (Raise (SystemExit
                  (FailJson "Missing required nelsnmp module (check docs)")),
         w))
  /\ (forall c,
      version c = Some "2c" -> community c = None ->
      open_session true c w
      = (Raise (SystemExit
                  (FailJson "Community not set when using snmp version 2")),
         w))
  /\ (forall c,
      version c = Some "3" -> username c = None ->
      open_session true c w
      = (Raise (SystemExit
                  (FailJson "Username not set when using snmp version 3")),
         w))
  /\ (forall c,
      version c = Some "3" -> username c <> None ->
      level c = Some "authPriv" -> privacy c = None ->
      open_session true c w
      = (Raise (SystemExit
                  (FailJson "Privacy algorithm not set when using authPriv")),
         w))
  /\ (forall c cls msg,
      credentials_ok c ->
      dev_connect (device w) (nelsnmp_args c) = Some (Exception cls msg) ->
      open_session true c w = (Raise (SystemExit (FailJson msg)), w))
  /\ (forall has_nelsnmp e w',
      (forall m_args,
          open_session has_nelsnmp (Switchport.conn m_args) w
          = (Raise e, w') ->
          Switchport.main o has_nelsnmp m_args w = (Raise e, w'))
      /\ (forall m_args,
          open_session has_nelsnmp (Cdp.conn m_args) w = (Raise e, w') ->
          Cdp.main o has_nelsnmp m_args w = (Raise e, w'))).
Proof.
  split_and!.
  - intros c. by rewrite open_session_cases.
  - intros c Hv Hc. rewrite open_session_cases. cbn [negb].
    by rewrite (bool_decide_eq_true_2 _ Hv), (bool_decide_eq_true_2 _ Hc).
  - intros c Hv Hu. rewrite open_session_cases. cbn [negb].
    rewrite (bool_decide_eq_false_2 (version c = Some "2c")) by congruence.
    by rewrite (bool_decide_eq_true_2 _ Hv), (bool_decide_eq_true_2 _ Hu).
  - intros c Hv Hu Hl Hp. rewrite open_session_cases. cbn [negb].
    rewrite (bool_decide_eq_false_2 (version c = Some "2c")) by congruence.
    rewrite (bool_decide_eq_false_2 (username c = None)) by done.
    rewrite andb_false_r.
    by rewrite (bool_decide_eq_true_2 _ Hv), (bool_decide_eq_true_2 _ Hl),
      (bool_decide_eq_true_2 _ Hp).
  - intros c cls msg [Hc2 Hc3] Hk. rewrite open_session_cases. cbn [negb].
    rewrite Hk.
    destruct (bool_decide (version c = Some "2c")
              && bool_decide (community c = None)) eqn:E1.
    { apply andb_true_iff in E1 as [Hv Hn].
      apply bool_decide_eq_true in Hv, Hn. by destruct (Hc2 Hv). }
    destruct (bool_decide (version c = Some "3")
              && bool_decide (username c = None)) eqn:E2.
    { apply andb_true_iff in E2 as [Hv Hn].
      apply bool_decide_eq_true in Hv, Hn. by destruct (Hc3 Hv) as [Hu _]. }
    destruct (bool_decide (version c = Some "3")
              && bool_decide (level c = Some "authPriv")
              && bool_decide (privacy c = None)) eqn:E3; [|done].
    apply andb_true_iff in E3 as [E3 Hn].
    apply andb_true_iff in E3 as [Hv Hl].
    apply bool_decide_eq_true in Hv, Hl, Hn.
    destruct (Hc3 Hv) as [_ Hp]. by destruct (Hp Hl).
  - intros hn e w'. split; intros m_args Hopen.
    + unfold Switchport.main. by apply bind_Raise.
    + unfold Cdp.main. by apply bind_Raise.
Qed.

Lemma start_failure_messages_witness :
  Switchport.main Sim.cisco true
    {| Switchport.conn :=
         {| host := Some "sw1"; version := Some "3"; community := None;
            username := Some "admin"; level := Some "authPriv";
            integrity := Some "sha"; privacy := None;
            authkey := Some "k"; privkey := None |};
       Switchport.mode := Some "access";
       Switchport.interface_id := Some "5";
       Switchport.interface_name := None;
       Switchport.access_vlan := None;
       Switchport.native_vlan := None;
       Switchport.removeplaceholder := None |}
    (World Sim.switch [])
  = (Raise (SystemExit
              (FailJson "Privacy algorithm not set when using authPriv")),
     World Sim.switch []).
Proof.
  destruct (@start_failure_messages Sim.dev Sim.handler Sim.cisco
              (World Sim.switch []))
    as (_ & _ & _ & Hpriv & _ & Hmain).
  apply (Hmain true). apply Hpriv; done.
Defined.

(** ** One [set_state] call *)

(** X3. Whatever the device does, one [set_state] call sends one of four
    request sequences, all at its OID: a read alone (result [False]), a
    read and an accepted write of the desired value (result [True]), a
    read and a refused write (the write error), or a failed read alone (an
    exception).  So it never writes before a read that returned, and never
    writes twice. *)
Theorem set_state_outcomes {D : Type} `{SnmpHandler D}
    (w : world D) oid desired :
  exists evs,
    trace (set_state oid desired w).2 = trace w ++ evs
    /\ set_state_outcome oid desired evs (set_state oid desired w).1.
Proof.
  unfold set_state, bind, try_except_Exception, try_except,
    get_value, set_value, fail_json, raise, ret, set_state_outcome.
  destruct (dev_get_value (device w) oid) as [[e|cur] d1]; simpl.
  - exists [Event GET oid false]. split; [by destruct (is_Exception e)|].
    do 3 right. split; [done|]. destruct (is_Exception e); eauto.
  - destruct (py_eq cur desired); simpl.
    + exists [Event GET oid true]. split; [done|]. by left.
    + destruct (dev_set d1 oid desired) as [[e|] d2]; simpl.
      * exists [Event GET oid true; Event (SET desired) oid false].
        rewrite <- app_assoc. split; [done|]. right. right. by left.
      * exists [Event GET oid true; Event (SET desired) oid true].
        rewrite <- app_assoc. split; [done|]. right. by left.
Qed.

(** X4. When the read raises, [set_state] sends nothing more: an
    [Exception] becomes [fail_json] with the exception's text, any other
    exception passes through unchanged. *)
Theorem set_state_read_failure {D : Type} `{SnmpHandler D}
    (w : world D) oid desired e d1 :
  dev_get_value (device w) oid = (inl e, d1) ->
  set_state oid desired w
  = (Raise (if is_Exception e then SystemExit (FailJson (str_exc e)) else e),
     World d1 (trace w ++ [Event GET oid false])).
Proof.
  intros Hget.
  unfold set_state, bind, try_except_Exception, get_value, fail_json, raise.
  rewrite Hget. simpl. by destruct (is_Exception e).
Qed.

Lemma set_state_read_failure_witness :
  set_state "1.3.6.1.4.1.9.9.68.1.2.2.1.2.9" (VInt 12) (World Sim.switch [])
  = (Raise (SystemExit (FailJson "noSuchObject")),
     World Sim.switch
           ([] ++ [Event GET "1.3.6.1.4.1.9.9.68.1.2.2.1.2.9" false])).
Proof.
  apply (set_state_read_failure (World Sim.switch [])
           "1.3.6.1.4.1.9.9.68.1.2.2.1.2.9" (VInt 12)
           (Exception "SnmpError" "noSuchObject") Sim.switch).
  reflexivity.
Defined.

Lemma session_opens_iff_witness :
  open_session true Sim.v2c (World Sim.switch [])
  = (Ret tt, World Sim.switch []).
Proof.
  apply (session_opens_iff true Sim.v2c (World Sim.switch [])).
  split_and!; [done | | done | done].
  split; [done | discriminate].
Defined.

(** ** Interface resolution *)

Lemma rsplit_dot_spec (s : string) :
  ("."%char ∉ list_ascii_of_string (rsplit_dot s).2)
  /\ s = match (rsplit_dot s).1 with
         | Some h => h +:+ "." +:+ (rsplit_dot s).2
         | None => (rsplit_dot s).2
         end.
Proof.
  induction s as [|c s [IHt IHs]]; simpl.
  - split; [apply not_elem_of_nil | done].
  - destruct (rsplit_dot s) as [[h|] t]; simpl in *.
    + split; [done|]. rewrite IHs at 1. reflexivity.
    + subst t. destruct (Ascii.eqb c ".") eqn:Ec; simpl.
      * apply Ascii.eqb_eq in Ec as ->. split; [done | reflexivity].
      * split; [|done]. apply Ascii.eqb_neq in Ec.
        apply not_elem_of_cons. split; [congruence | done].
Qed.

(** The last component has no dot, and the string ends with it. *)
Lemma item_last_rsplit1 (s : string) :
  ("."%char ∉ list_ascii_of_string (item_last (rsplit1 s)))
  /\ (s = item_last (rsplit1 s)
      \/ exists h, s = h +:+ "." +:+ item_last (rsplit1 s)).
Proof.
  destruct (rsplit_dot_spec s) as [Ht Hs]. unfold rsplit1.
  destruct (rsplit_dot s) as [[h|] t]; simpl in *;
    (split; [done|]); [right; by exists h | by left].
Qed.

Lemma scan_varbinds_Some name (l : list (string * value)) acc i :
  scan_varbinds name acc l = Some i ->
  acc = Some i
  \/ exists oid, (oid, VStr name) ∈ l /\ i = item_last (rsplit1 oid).
Proof.
  revert acc. induction l as [|[oid val] l IH]; intros acc; [by left|].
  change (scan_varbinds name acc ((oid, val) :: l))
    with (scan_varbinds name
            (if py_eq (VStr name) val then Some (item_last (rsplit1 oid))
             else acc) l).
  intros Hscan. destruct (IH _ Hscan) as [Hacc|(oid' & Hin & Hi)].
  - destruct (py_eq (VStr name) val) eqn:E; [|by left].
    apply py_eq_true in E as <-. injection Hacc as <-.
    right. exists oid. split; [apply list_elem_of_here | done].
  - right. exists oid'. split; [by apply list_elem_of_further | done].
Qed.

(** X5. A name that resolves comes from the table: when resolution
    returns an index, the walk returned a table with an entry whose value
    is the requested name, and the index is what follows the last dot of
    that entry's OID (the whole OID if it has no dot), so it contains no
    dot itself. *)
Theorem interface_by_name_sound {D : Type} `{SnmpHandler D}
    (o : CiscoOids) name (w w' : world D) i :
  interface_by_name o name w = (Ret i, w') ->
  exists (t : vartable) oid,
    dev_getnext (device w) (ifDescr o) = (inr t, device w')
    /\ ((oid, VStr name) ∈ concat t)
    /\ i = item_last (rsplit1 oid)
    /\ ("."%char ∉ list_ascii_of_string i)
    /\ (oid = i \/ exists h, oid = h +:+ "." +:+ i).
Proof.
  unfold interface_by_name, try_except_Exception, bind, getnext,
    fail_json, raise, ret.
  destruct (dev_getnext (device w) (ifDescr o)) as [[e|t] d1]; simpl.
  { by destruct (is_Exception e). }
  unfold scan_vartable. rewrite scan_vartable_concat.
  destruct (scan_varbinds name None (concat t)) as [i'|] eqn:Hscan;
    simpl; [|discriminate].
  intros [= -> <-]. simpl.
  apply scan_varbinds_Some in Hscan as [?|(oid & Hin & ->)]; [done|].
  exists t, oid. destruct (item_last_rsplit1 oid) as [Hdot Hsuffix].
  by split_and!.
Qed.

Lemma interface_by_name_sound_witness :
  exists (t : vartable) oid,
    dev_getnext Sim.twins (ifDescr Sim.cisco) = (inr t, Sim.twins)
    /\ ((oid, VStr "Gi0/1") ∈ concat t)
    /\ "7" = item_last (rsplit1 oid)
    /\ ("."%char ∉ list_ascii_of_string "7")
    /\ (oid = "7" \/ exists h, oid = h +:+ "." +:+ "7").
Proof.
  apply (interface_by_name_sound Sim.cisco "Gi0/1" (World Sim.twins [])
           (World Sim.twins [Event GETNEXT "1.3.6.1.2.1.2.2.1.2" true])).
  reflexivity.
Defined.

(** X6. When the walk raises, resolution ends there: an [Exception]
    becomes [fail_json] with the exception's text, any other exception
    passes through unchanged; the failed walk is the only request sent. *)
Theorem interface_by_name_walk_failure {D : Type} `{SnmpHandler D}
    (o : CiscoOids) name (w : world D) e d1 :
  dev_getnext (device w) (ifDescr o) = (inl e, d1) ->
  interface_by_name o name w
  = (Raise (if is_Exception e then SystemExit (FailJson (str_exc e)) else e),
     World d1 (trace w ++ [Event GETNEXT (ifDescr o) false])).
Proof.
  intros Hwalk.
  unfold interface_by_name, try_except_Exception, bind, getnext,
    fail_json, raise.
  rewrite Hwalk. simpl. by destruct (is_Exception e).
Qed.

Lemma interface_by_name_walk_failure_witness :
  interface_by_name Sim.cisco "Gi0/1" (World Down.Dead [])
  = (Raise (SystemExit
              (FailJson "No SNMP response received before timeout")),
     World Down.Dead ([] ++ [Event GETNEXT (ifDescr Sim.cisco) false])).
Proof.
  apply (interface_by_name_walk_failure Sim.cisco "Gi0/1"
           (World Down.Dead []) Down.timeout Down.Dead).
  reflexivity.
Defined.

(** X7. Resolution by name sends exactly one request whatever happens: a
    walk of [ifDescr].  It never reads a single value and never writes. *)
Theorem interface_by_name_one_walk {D : Type} `{SnmpHandler D}
    (o : CiscoOids) name (w : world D) :
  exists ok,
    (interface_by_name o name w).2
    = World (dev_getnext (device w) (ifDescr o)).2
            (trace w ++ [Event GETNEXT (ifDescr o) ok]).
Proof.
  unfold interface_by_name, try_except_Exception, bind, getnext,
    fail_json, raise, ret.
  destruct (dev_getnext (device w) (ifDescr o)) as [[e|t] d1]; simpl.
  - exists false. by destruct (is_Exception e).
  - exists true. by destruct (scan_vartable name t).
Qed.



(** ** How runs end *)
Section Endings.
Context {D : Type} `{SnmpHandler D}.

Lemma raises_weaken {A} (P Q : exc -> Prop) (m : M D A) :
  (forall e, P e -> Q e) -> raises P m -> raises Q m.
Proof. intros HPQ Hm w e He. by eapply HPQ, Hm. Qed.

Lemma raises_ret {A} P (a : A) : raises P (ret (D:=D) a).
Proof. intros w e. discriminate. Qed.

Lemma raises_raise {A} (P : exc -> Prop) e :
  P e -> raises P (raise (D:=D) (A:=A) e).
Proof. intros HP w e'. by intros [= <-]. Qed.

Lemma raises_bind {A B} P (m : M D A) (k : A -> M D B) :
  raises P m ->
  (forall a, (exists w w1, m w = (Ret a, w1)) -> raises P (k a)) ->
  raises P (bind m k).
Proof.
  intros Hm Hk w e. unfold bind.
  destruct (m w) as [[a|e'] w1] eqn:E.
  - apply Hk. by exists w, w1.
  - simpl. intros [= <-]. apply (Hm w). by rewrite E.
Qed.

Lemma raises_try_except_Exception {A} (P : exc -> Prop)
    (body : M D A) handler :
  raises (fun e => is_Exception e = true \/ P e) body ->
  (forall e, raises P (handler e)) ->
  raises P (try_except_Exception body handler).
Proof.
  intros Hb Hh w e. unfold try_except_Exception.
  destruct (body w) as [[a|e'] w1] eqn:E; [discriminate|].
  destruct (is_Exception e') eqn:He'; [apply Hh|].
  simpl. intros [= <-].
  destruct (Hb w e') as [?|?]; [by rewrite E | congruence | done].
Qed.

Lemma raises_try_except {A} (P : exc -> Prop) (body handler : M D A) :
  raises P handler -> raises P (try_except body handler).
Proof.
  intros Hh w e. unfold try_except.
  destruct (body w) as [[a|e'] w1]; [discriminate | apply Hh].
Qed.

Lemma raises_when P b (m : M D unit) : raises P m -> raises P (when b m).
Proof. destruct b; [done|]. intros _. apply raises_ret. Qed.

Lemma raises_get_value oid :
  raises (fun e => is_Exception e = true \/ fail_or_client e)
         (get_value (D:=D) oid).
Proof.
  intros w e. unfold get_value.
  destruct (dev_get_value (device w) oid) as [[e'|v] d] eqn:E;
    [|discriminate].
  simpl. intros [= <-]. destruct (is_Exception e') eqn:He; [by left|].
  right. right. split; [done|]. right. left.
  exists (device w), oid. by rewrite E.
Qed.

Lemma raises_getnext oid :
  raises (fun e => is_Exception e = true \/ fail_or_client e)
         (getnext (D:=D) oid).
Proof.
  intros w e. unfold getnext.
  destruct (dev_getnext (device w) oid) as [[e'|v] d] eqn:E;
    [|discriminate].
  simpl. intros [= <-]. destruct (is_Exception e') eqn:He; [by left|].
  right. right. split; [done|]. right. right.
  exists (device w), oid. by rewrite E.
Qed.

Lemma raises_SnmpHandler_new kw :
  raises (fun e => is_Exception e = true \/ fail_or_client e)
         (SnmpHandler_new (D:=D) kw).
Proof.
  intros w e. unfold SnmpHandler_new.
  destruct (dev_connect (device w) kw) as [e'|] eqn:E; [|discriminate].
  simpl. intros [= <-]. destruct (is_Exception e') eqn:He; [by left|].
  right. right. split; [done|]. left. by exists (device w), kw.
Qed.

Lemma fail_or_client_fail msg :
  fail_or_client (D:=D) (SystemExit (FailJson msg)).
Proof. left. by eexists. Qed.

Lemma raises_fail_json {A} msg :
  raises fail_or_client (fail_json (D:=D) (A:=A) msg).
Proof. apply raises_raise, fail_or_client_fail. Qed.

Lemma raises_set_state oid desired :
  raises fail_or_client (set_state (D:=D) oid desired).
Proof.
  unfold set_state. apply raises_bind.
  - apply raises_try_except_Exception; [apply raises_get_value|].
    intros e. apply raises_fail_json.
  - intros cur _. destruct (py_eq cur desired); [apply raises_ret|].
    apply raises_bind; [|intros; apply raises_ret].
    apply raises_try_except, raises_fail_json.
Qed.

Lemma raises_open_session has_nelsnmp c :
  raises fail_or_client (open_session (D:=D) has_nelsnmp c).
Proof.
  unfold open_session.
  repeat first
    [ apply raises_bind; [|intros _ _]
    | apply raises_when
    | apply raises_fail_json ].
  apply raises_try_except_Exception; [apply raises_SnmpHandler_new|].
  intros e. apply raises_fail_json.
Qed.

Lemma raises_interface_by_name o name :
  raises fail_or_client (interface_by_name (D:=D) o name).
Proof.
  unfold interface_by_name.
  apply raises_try_except_Exception; [|intros; apply raises_fail_json].
  apply raises_bind; [apply raises_getnext|]. intros t _.
  destruct (scan_vartable name t); [apply raises_ret|].
  eapply raises_weaken; [|apply raises_fail_json]. by right.
Qed.

Lemma raises_bind_interface o name id :
  raises fail_or_client (bind_interface (D:=D) o name id).
Proof.
  unfold bind_interface. apply raises_bind; [|intros; apply raises_ret].
  destruct (truthy name); [|apply raises_ret].
  apply raises_bind; [apply raises_interface_by_name|].
  intros; apply raises_ret.
Qed.

(** [interface] stays unbound only when neither argument is given. *)
Lemma bind_interface_None o name id (w w0 : world D) :
  bind_interface o name id w = (Ret None, w0) ->
  truthy name = false /\ truthy id = false.
Proof.
  unfold bind_interface, bind, ret.
  destruct (truthy name).
  - destruct (interface_by_name o (the name) w) as [[i|e] w1];
      [|discriminate].
    destruct (truthy id); discriminate.
  - destruct (truthy id); [discriminate | done].
Qed.
End Endings.

Section ModuleEndings.
Context {D : Type} `{SnmpHandler D}.
Variable o : CiscoOids.
Variable has_nelsnmp : bool.

(** A computation that ends with [exit_json] never returns. *)
Lemma bind_ends {A B} (m : M D A) (k : A -> M D B) :
  (forall a w, exists e, (k a w).1 = Raise e) ->
  forall w, exists e, (bind m k w).1 = Raise e.
Proof.
  intros Hk w. unfold bind. destruct (m w) as [[a|e] w1]; [apply Hk|].
  by exists e.
Qed.

Lemma raises_local (interface : option string) :
  raises (fun e => unbound_interface e /\ interface = None)
         (local (D:=D) "interface" interface).
Proof.
  destruct interface; [apply raises_ret|].
  apply raises_raise. split; [by eexists | done].
Qed.

Lemma raises_dict_get (table : gmap string Z) (arg : option string) :
  truthy arg = true ->
  raises (missing_label table arg) (dict_get (D:=D) table (the arg)).
Proof.
  intros Harg. unfold dict_get.
  destruct (table !! the arg) eqn:E; [apply raises_ret|].
  by apply raises_raise.
Qed.

Lemma raises_int (arg : option string) :
  truthy arg = true ->
  raises (bad_vlan arg) (Switchport.int (D:=D) (the arg)).
Proof.
  intros Harg. unfold Switchport.int.
  destruct (py_int (the arg)) eqn:E; [apply raises_ret|].
  by apply raises_raise.
Qed.

(** The common shape of the blocks that use [interface]. *)
Lemma raises_setting (arg : option string) base (codec : string -> M D Z)
    (P : exc -> Prop) interface has_changed :
  (truthy arg = true -> raises P (codec (the arg))) ->
  raises (fun e => fail_or_client e
                   \/ (unbound_interface e /\ interface = None) \/ P e)
    (if truthy arg then
       i <- local "interface" interface ;;
       let oid := base +:+ "." +:+ i in
       desired_state <- codec (the arg) ;;
       changed <- set_state oid (VInt desired_state) ;;
       ret (changed_status changed has_changed)
     else ret has_changed).
Proof.
  intros Hcodec. destruct (truthy arg); [|apply raises_ret].
  apply raises_bind.
  { eapply raises_weaken; [|apply raises_local]. intros e He. right. by left. }
  intros i _. apply raises_bind.
  { eapply raises_weaken; [|by apply Hcodec]. intros e He. right. by right. }
  intros v _. apply raises_bind; [|intros; apply raises_ret].
  eapply raises_weaken; [|apply raises_set_state]. intros e He. by left.
Qed.

Lemma raises_switchport_main m_args :
  raises (switchport_ending m_args) (Switchport.main o has_nelsnmp m_args).
Proof.
  unfold Switchport.main, switchport_ending.
  apply raises_bind.
  { eapply raises_weaken; [|apply raises_open_session].
    intros e He. right. by left. }
  intros _ _. apply raises_bind.
  { eapply raises_weaken; [|apply raises_bind_interface].
    intros e He. right. by left. }
  intros interface (w & w0 & Hif).
  assert (Hunbound : interface = None ->
            truthy (Switchport.interface_name m_args) = false
            /\ truthy (Switchport.interface_id m_args) = false).
  { intros ->. by eapply bind_interface_None. }
  apply raises_bind.
  { eapply raises_weaken;
      [|apply (raises_setting _ _ _ _ _ _
                 (raises_dict_get Switchport.PORT_MODE
                    (Switchport.mode m_args)))].
    intros e [He|[[He Hi]|He]]; [by right; left | | by do 3 right; left].
    right. right. left. split; [done | by apply Hunbound]. }
  intros h1 _. apply raises_bind.
  { eapply raises_weaken;
      [|apply (raises_setting _ _ _ _ _ _
                 (raises_int (Switchport.access_vlan m_args)))].
    intros e [He|[[He Hi]|He]]; [by right; left | | by do 4 right; left].
    right. right. left. split; [done | by apply Hunbound]. }
  intros h2 _. apply raises_bind.
  { eapply raises_weaken;
      [|apply (raises_setting _ _ _ _ _ _
                 (raises_int (Switchport.native_vlan m_args)))].
    intros e [He|[[He Hi]|He]]; [by right; left | | by do 5 right].
    right. right. left. split; [done | by apply Hunbound]. }
  intros h3 _. apply raises_raise. left. by eexists.
Qed.

Lemma raises_cdp_main m_args :
  raises (cdp_ending m_args) (Cdp.main o has_nelsnmp m_args).
Proof.
  unfold Cdp.main, cdp_ending.
  apply raises_bind.
  { eapply raises_weaken; [|apply raises_open_session].
    intros e He. right. by left. }
  intros _ _. apply raises_bind.
  { eapply raises_weaken; [|apply raises_bind_interface].
    intros e He. right. by left. }
  intros interface (w & w0 & Hif).
  assert (Hunbound : interface = None ->
            truthy (Cdp.interface_name m_args) = false
            /\ truthy (Cdp.interface_id m_args) = false).
  { intros ->. by eapply bind_interface_None. }
  apply raises_bind.
  { unfold Cdp.set_cdp_global.
    destruct (truthy (Cdp.cdp_global m_args)) eqn:Harg; [|apply raises_ret].
    apply raises_bind.
    { eapply raises_weaken; [|by apply raises_dict_get].
      intros e He. by do 3 right; left. }
    intros v _. apply raises_bind; [|intros; apply raises_ret].
    eapply raises_weaken; [|apply raises_set_state].
    intros e He. right. by left. }
  intros h1 _. apply raises_bind.
  { eapply raises_weaken;
      [|apply (raises_setting _ _ _ _ _ _
                 (raises_dict_get Cdp.CDP_STATE (Cdp.cdp_interface m_args)))].
    intros e [He|[[He Hi]|He]]; [by right; left | | by do 4 right].
    right. right. left. split; [done | by apply Hunbound]. }
  intros h2 _. apply raises_raise. left. by eexists.
Qed.


Lemma cdp_main_ends m_args (w : world D) :
  exists e, (Cdp.main o has_nelsnmp m_args w).1 = Raise e.
Proof.
  unfold Cdp.main.
  do 4 (apply bind_ends; intros ? ?). by eexists.
Qed.
End ModuleEndings.


(** X10. A run of the CDP module never returns normally, and it ends in
    one of these ways only: [exit_json]; [fail_json]; an exception of the
    client that is no [Exception]; [UnboundLocalError] when neither
    interface argument is given; [KeyError] for a label that [CDP_STATE]
    lacks. *)
Theorem cdp_endings {D : Type} `{SnmpHandler D}
    (o : CiscoOids) has_nelsnmp m_args (w : world D) :
  exists e,
    (Cdp.main o has_nelsnmp m_args w).1 = Raise e /\ cdp_ending m_args e.
Proof.
  destruct (cdp_main_ends o has_nelsnmp m_args w) as [e He].
  exists e. split; [done|]. by eapply raises_cdp_main.
Qed.

(** X11. Labels that passed the argument spec are found in the tables, with
    one exception: a run of the CDP module with validated arguments never
    ends in [KeyError], and a run of the switchport module with a validated
    mode other than ["desireable"] never does either. *)
Theorem validated_labels_no_KeyError {D : Type} `{SnmpHandler D}
    (o : CiscoOids) has_nelsnmp :
  (forall (m_args : Cdp.params) (w : world D) msg,
      Cdp.choices_ok m_args ->
      (Cdp.main o has_nelsnmp m_args w).1 <> Raise (Exception "KeyError" msg))
  /\ (forall (m_args : Switchport.params) (w : world D) msg,
      Switchport.choices_ok m_args ->
      Switchport.mode m_args <> Some "desireable" ->
      (Switchport.main o has_nelsnmp m_args w).1
      <> Raise (Exception "KeyError" msg)).
Proof.
  assert (Hclient : forall msg,
             ~ fail_or_client (D:=D) (Exception "KeyError" msg)).
  { intros msg [[? ?]|[? _]]; discriminate. }
  assert (Hunbound : forall msg, ~ unbound_interface (Exception "KeyError" msg)).
  { intros msg [? ?]. discriminate. }
  assert (Hcdp : forall arg e,
             (forall v, arg = Some v -> v ∈ Cdp.cdp_choices) ->
             ~ missing_label Cdp.CDP_STATE arg e).
  { intros arg e Hok (Harg & Hnone & _).
    destruct arg as [v|]; [|done]. specialize (Hok v eq_refl).
    simpl in Hnone. unfold Cdp.cdp_choices in Hok.
    apply elem_of_cons in Hok as [->|Hok]; [by vm_compute in Hnone|].
    apply list_elem_of_singleton in Hok as ->. by vm_compute in Hnone. }
  split.
  - intros m_args w msg [Hg Hi] Hend.
    apply (raises_cdp_main o has_nelsnmp m_args) in Hend.
    destruct Hend as [[? ?]|[Hc|[[Hu _]|[Hm|Hm]]]];
      [discriminate | by eapply Hclient | by eapply Hunbound
      | exact (Hcdp _ _ Hg Hm) | exact (Hcdp _ _ Hi Hm) ].
  - intros m_args w msg (v & Hmode & Hv) Hnot Hend.
    apply (raises_switchport_main o has_nelsnmp m_args) in Hend.
    destruct Hend as [[? ?]|[Hc|[[Hu _]|[Hmiss|[(_ & _ & ?)|(_ & _ & ?)]]]]];
      [discriminate | by eapply Hclient | by eapply Hunbound | |
       discriminate | discriminate].
    destruct Hmiss as (_ & Hnone & _). rewrite Hmode in Hnone, Hnot.
    simpl in Hnone. unfold Switchport.mode_choices in Hv.
    repeat (apply elem_of_cons in Hv as [->|Hv];
            [first [by vm_compute in Hnone | done]|]).
    by apply elem_of_nil in Hv.
Qed.

Lemma validated_labels_no_KeyError_witness :
  (Cdp.main Sim.cisco true (Sim.cdp (Some "disabled") None None None)
     (World Sim.switch [])).1
  <> Raise (Exception "KeyError" "'disabled'").
Proof.
  destruct (@validated_labels_no_KeyError Sim.dev Sim.handler Sim.cisco true)
    as [Hcdp _].
  apply Hcdp. split; intros v [= <-].
  by apply (bool_decide_unpack _).
Defined.



(** ** Exits and the flags of the settings *)
Section Flags.
Context {D : Type} `{SnmpHandler D}.
Variable o : CiscoOids.
Variable has_nelsnmp : bool.

Lemma set_cdp_global_flag m_args has_changed (w : world D) c w' :
  flag_at (Cdp.cdp_global m_args) (fun s => Cdp.CDP_STATE !! s)
          (cdpGlobalRun o +:+ ".0") w c w' ->
  Cdp.set_cdp_global o m_args has_changed w = (Ret (c || has_changed), w').
Proof.
  unfold flag_at, Cdp.set_cdp_global.
  destruct (truthy (Cdp.cdp_global m_args)); [|by intros [-> ->]].
  intros (v & Hv & Hset). unfold dict_get. rewrite Hv.
  unfold bind, ret. cbv beta iota zeta. rewrite Hset.
  by rewrite changed_status_orb.
Qed.

Lemma set_cdp_interface_flag m_args interface has_changed (w : world D) c w' :
  flag (Cdp.cdp_interface m_args) (fun s => Cdp.CDP_STATE !! s)
       (cdpInterfaceEnable o) interface w c w' ->
  Cdp.set_cdp_interface o m_args interface has_changed w
  = (Ret (c || has_changed), w').
Proof.
  unfold flag, Cdp.set_cdp_interface.
  destruct (truthy (Cdp.cdp_interface m_args)); [|by intros [-> ->]].
  intros (i & v & -> & Hv & Hset). unfold dict_get, local. rewrite Hv.
  unfold bind, ret. cbv beta iota zeta. rewrite Hset.
  by rewrite changed_status_orb.
Qed.

(** A block that returns has run its [set_state] to the end. *)
Ltac block_returns :=
  unfold flag, flag_at, Switchport.set_mode, Switchport.set_access_vlan,
    Switchport.set_native_vlan, Cdp.set_cdp_global, Cdp.set_cdp_interface;
  match goal with
  | |- (if truthy ?arg then _ else _) _ = _ -> _ =>
      destruct (truthy arg);
      [|intros [= <- <-]; by exists false]
  end;
  unfold dict_get, Switchport.int, local;
  repeat match goal with
    | |- context [match ?x with Some _ => _ | None => _ end] =>
        destruct x; [|discriminate]
    end;
  cbv beta iota zeta delta [bind ret raise];
  match goal with
  | |- context [set_state ?oid ?v ?w] =>
      let c := fresh "c" in
      destruct (set_state oid v w) as [[c|?] ?] eqn:?; [|discriminate];
      intros [= <- <-]; exists c; rewrite changed_status_orb;
      split; [eauto 6 | done]
  end.

Lemma set_mode_returns m_args interface has_changed (w w1 : world D) h :
  Switchport.set_mode o m_args interface has_changed w = (Ret h, w1) ->
  exists c,
    flag (Switchport.mode m_args) (fun s => Switchport.PORT_MODE !! s)
         (vlanTrunkPortDynamicState o) interface w c w1
    /\ h = c || has_changed.
Proof. block_returns. Qed.

Lemma set_access_vlan_returns m_args interface has_changed
    (w w1 : world D) h :
  Switchport.set_access_vlan o m_args interface has_changed w = (Ret h, w1) ->
  exists c,
    flag (Switchport.access_vlan m_args) py_int (vmVlan o) interface w c w1
    /\ h = c || has_changed.
Proof. block_returns. Qed.

Lemma set_native_vlan_returns m_args interface has_changed
    (w w1 : world D) h :
  Switchport.set_native_vlan o m_args interface has_changed w = (Ret h, w1) ->
  exists c,
    flag (Switchport.native_vlan m_args) py_int (vlanTrunkPortNativeVlan o)
         interface w c w1
    /\ h = c || has_changed.
Proof. block_returns. Qed.

Lemma set_cdp_global_returns m_args has_changed (w w1 : world D) h :
  Cdp.set_cdp_global o m_args has_changed w = (Ret h, w1) ->
  exists c,
    flag_at (Cdp.cdp_global m_args) (fun s => Cdp.CDP_STATE !! s)
            (cdpGlobalRun o +:+ ".0") w c w1
    /\ h = c || has_changed.
Proof. block_returns. Qed.

Lemma set_cdp_interface_returns m_args interface has_changed
    (w w1 : world D) h :
  Cdp.set_cdp_interface o m_args interface has_changed w = (Ret h, w1) ->
  exists c,
    flag (Cdp.cdp_interface m_args) (fun s => Cdp.CDP_STATE !! s)
         (cdpInterfaceEnable o) interface w c w1
    /\ h = c || has_changed.
Proof. block_returns. Qed.
End Flags.

Section Exits.
Context {D : Type} `{SnmpHandler D}.
Variable o : CiscoOids.
Variable has_nelsnmp : bool.

Lemma fail_or_client_not_exit c :
  never_exits (D:=D) -> ~ fail_or_client (D:=D) (SystemExit (ExitJson c)).
Proof.
  intros (Hconnect & Hget & Hwalk) [[msg ?]|[_ Hfrom]]; [discriminate|].
  destruct Hfrom as [(d & kw & Hk)|[(d & oid & Hk)|(d & oid & Hk)]].
  - by eapply Hconnect.
  - by eapply Hget.
  - by eapply Hwalk.
Qed.

(** Before [exit_json], no step ends in the [SystemExit] of an exit. *)
Lemma step_not_exit {A} (Q : exc -> Prop) (m : M D A) w c w' :
  never_exits (D:=D) -> raises Q m ->
  (forall e, Q e -> fail_or_client e \/ is_Exception e = true) ->
  m w <> (Raise (SystemExit (ExitJson c)), w').
Proof.
  intros Hnever Hm HQ Hrun.
  destruct (HQ _ (Hm w (SystemExit (ExitJson c)) ltac:(by rewrite Hrun)))
    as [?|?]; [by eapply fail_or_client_not_exit | discriminate].
Qed.

Lemma setting_not_exit (arg : option string) base (codec : string -> M D Z)
    (P : exc -> Prop) interface has_changed w c w' :
  never_exits (D:=D) ->
  (truthy arg = true -> raises P (codec (the arg))) ->
  (forall e, P e -> is_Exception e = true) ->
  (if truthy arg then
     i <- local "interface" interface ;;
     let oid := base +:+ "." +:+ i in
     desired_state <- codec (the arg) ;;
     changed <- set_state oid (VInt desired_state) ;;
     ret (changed_status changed has_changed)
   else ret has_changed) w
  <> (Raise (SystemExit (ExitJson c)), w').
Proof.
  intros Hnever Hcodec HP.
  eapply step_not_exit; [done | by apply raises_setting |].
  intros e [?|[[[msg ->] _]|?]]; [by left | by right | right; by apply HP].
Qed.

Lemma missing_label_Exception table arg e :
  missing_label table arg e -> is_Exception e = true.
Proof. by intros (_ & _ & ->). Qed.

Lemma bad_vlan_Exception arg e : bad_vlan arg e -> is_Exception e = true.
Proof. by intros (_ & _ & ->). Qed.

Lemma switchport_applied_exits m_args (w w3 : world D) c :
  switchport_applied o has_nelsnmp m_args w c w3 ->
  Switchport.main o has_nelsnmp m_args w
  = (Raise (SystemExit (ExitJson c)), w3).
Proof.
  intros (interface & w0 & w1 & w2 & c1 & c2 & c3
          & Hopen & Hif & H1 & H2 & H3 & ->).
  unfold Switchport.main.
  rewrite (bind_Ret _ _ _ _ _ Hopen), (bind_Ret _ _ _ _ _ Hif).
  rewrite (bind_Ret _ _ _ _ _
             (set_mode_flag o m_args interface false _ _ _ H1)).
  rewrite (bind_Ret _ _ _ _ _
             (set_access_vlan_flag o m_args interface _ _ _ _ H2)).
  rewrite (bind_Ret _ _ _ _ _
             (set_native_vlan_flag o m_args interface _ _ _ _ H3)).
  unfold exit_json, raise. by destruct c1, c2, c3.
Qed.

Lemma cdp_applied_exits m_args (w w2 : world D) c :
  cdp_applied o has_nelsnmp m_args w c w2 ->
  Cdp.main o has_nelsnmp m_args w = (Raise (SystemExit (ExitJson c)), w2).
Proof.
  intros (interface & w0 & w1 & c1 & c2 & Hopen & Hif & H1 & H2 & ->).
  unfold Cdp.main.
  rewrite (bind_Ret _ _ _ _ _ Hopen), (bind_Ret _ _ _ _ _ Hif).
  rewrite (bind_Ret _ _ _ _ _ (set_cdp_global_flag o m_args false _ _ _ H1)).
  rewrite (bind_Ret _ _ _ _ _
             (set_cdp_interface_flag o m_args interface _ _ _ _ H2)).
  unfold exit_json, raise. by destruct c1, c2.
Qed.

(** One step of the inversion: a bind that ends in an exit has run its
    first part to a result. *)
Lemma bind_exit {A B} (Q : exc -> Prop) (m : M D A) (k : A -> M D B)
    w c w' :
  (forall c w1, m w <> (Raise (SystemExit (ExitJson c)), w1)) ->
  bind m k w = (Raise (SystemExit (ExitJson c)), w') ->
  exists a w1, m w = (Ret a, w1)
               /\ k a w1 = (Raise (SystemExit (ExitJson c)), w').
Proof.
  intros Hm. unfold bind. destruct (m w) as [[a|e] w1] eqn:E.
  - intros Hk. by exists a, w1.
  - intros [= -> ->]. by destruct (Hm c w').
Qed.

Lemma switchport_exit_applied m_args (w w3 : world D) c :
  never_exits (D:=D) ->
  Switchport.main o has_nelsnmp m_args w
  = (Raise (SystemExit (ExitJson c)), w3) ->
  switchport_applied o has_nelsnmp m_args w c w3.
Proof.
  intros Hnever. unfold Switchport.main. intros Hrun.
  apply (bind_exit (fun _ => True)) in Hrun as ([] & w' & Hopen & Hrun).
  2:{ intros c' w1. eapply step_not_exit;
        [done | apply raises_open_session | by left]. }
  assert (w' = w) as ->.
  { pose proof (open_session_world has_nelsnmp (Switchport.conn m_args) w)
      as Hw. by rewrite Hopen in Hw. }
  apply (bind_exit (fun _ => True)) in Hrun as (interface & w0 & Hif & Hrun).
  2:{ intros c' w1. eapply step_not_exit;
        [done | apply raises_bind_interface | by left]. }
  apply (bind_exit (fun _ => True)) in Hrun as (h1 & w1 & Hb1 & Hrun).
  2:{ intros c' w1'. apply setting_not_exit with (P := missing_label
        Switchport.PORT_MODE (Switchport.mode m_args));
        [done | apply raises_dict_get | apply missing_label_Exception]. }
  apply (bind_exit (fun _ => True)) in Hrun as (h2 & w2 & Hb2 & Hrun).
  2:{ intros c' w1'. apply setting_not_exit with
        (P := bad_vlan (Switchport.access_vlan m_args));
        [done | apply raises_int | apply bad_vlan_Exception]. }
  apply (bind_exit (fun _ => True)) in Hrun as (h3 & w3' & Hb3 & Hrun).
  2:{ intros c' w1'. apply setting_not_exit with
        (P := bad_vlan (Switchport.native_vlan m_args));
        [done | apply raises_int | apply bad_vlan_Exception]. }
  injection Hrun as <- <-.
  apply set_mode_returns in Hb1 as (c1 & H1 & ->).
  apply set_access_vlan_returns in Hb2 as (c2 & H2 & ->).
  apply set_native_vlan_returns in Hb3 as (c3 & H3 & ->).
  exists interface, w0, w1, w2, c1, c2, c3.
  split_and!; try done. by destruct c1, c2, c3.
Qed.

Lemma cdp_exit_applied m_args (w w2 : world D) c :
  never_exits (D:=D) ->
  Cdp.main o has_nelsnmp m_args w = (Raise (SystemExit (ExitJson c)), w2) ->
  cdp_applied o has_nelsnmp m_args w c w2.
Proof.
  intros Hnever. unfold Cdp.main. intros Hrun.
  apply (bind_exit (fun _ => True)) in Hrun as ([] & w' & Hopen & Hrun).
  2:{ intros c' w1. eapply step_not_exit;
        [done | apply raises_open_session | by left]. }
  assert (w' = w) as ->.
  { pose proof (open_session_world has_nelsnmp (Cdp.conn m_args) w) as Hw.
    by rewrite Hopen in Hw. }
  apply (bind_exit (fun _ => True)) in Hrun as (interface & w0 & Hif & Hrun).
  2:{ intros c' w1. eapply step_not_exit;
        [done | apply raises_bind_interface | by left]. }
  apply (bind_exit (fun _ => True)) in Hrun as (h1 & w1 & Hb1 & Hrun).
  2:{ intros c' w1'. unfold Cdp.set_cdp_global.
      destruct (truthy (Cdp.cdp_global m_args)) eqn:Harg; [|discriminate].
      eapply step_not_exit with
        (Q := fun e => fail_or_client e \/ is_Exception e = true);
        [done | | done].
      apply raises_bind.
      { eapply raises_weaken; [|by apply raises_dict_get].
        intros e He. right. by eapply missing_label_Exception. }
      intros v _. apply raises_bind; [|intros; apply raises_ret].
      eapply raises_weaken; [|apply raises_set_state]. intros e He. by left. }
  apply (bind_exit (fun _ => True)) in Hrun as (h2 & w2' & Hb2 & Hrun).
  2:{ intros c' w1'. apply setting_not_exit with (P := missing_label
        Cdp.CDP_STATE (Cdp.cdp_interface m_args));
        [done | apply raises_dict_get | apply missing_label_Exception]. }
  injection Hrun as <- <-.
  apply set_cdp_global_returns in Hb1 as (c1 & H1 & ->).
  apply set_cdp_interface_returns in Hb2 as (c2 & H2 & ->).
  exists interface, w0, w1, c1, c2.
  split_and!; try done. by destruct c1, c2.
Qed.
End Exits.

(** X13. The switchport module exits with [changed = c] exactly through
    the normal path: when the session opens, the interface is bound and
    every requested setting is encoded and reconciled, the run exits with
    the OR of the settings' flags; and on a client that does not itself
    raise the exit, a run that exits has gone through all of that. *)
Theorem switchport_exit_iff_applied {D : Type} `{SnmpHandler D}
    (o : CiscoOids) has_nelsnmp m_args (w w3 : world D) c :
  never_exits (D:=D) ->
  Switchport.main o has_nelsnmp m_args w
  = (Raise (SystemExit (ExitJson c)), w3)
  <-> switchport_applied o has_nelsnmp m_args w c w3.
Proof.
  intros Hnever. split.
  - by apply switchport_exit_applied.
  - apply switchport_applied_exits.
Qed.

(** X14. The CDP module exits with [changed = c] exactly through the
    normal path: the session opens, the interface is bound, and the global
    setting (at [cdpGlobalRun.0], which needs no interface) and the
    interface setting are reconciled when requested; [c] is the OR of their
    flags. *)
Theorem cdp_exit_iff_applied {D : Type} `{SnmpHandler D}
    (o : CiscoOids) has_nelsnmp m_args (w w2 : world D) c :
  never_exits (D:=D) ->
  Cdp.main o has_nelsnmp m_args w = (Raise (SystemExit (ExitJson c)), w2)
  <-> cdp_applied o has_nelsnmp m_args w c w2.
Proof.
  intros Hnever. split.
  - by apply cdp_exit_applied.
  - apply cdp_applied_exits.
Qed.

Lemma sim_never_exits : never_exits (D:=Sim.dev).
Proof.
  split_and!.
  - intros d kw c. discriminate.
  - intros d oid c. simpl. by destruct (Sim.mib d !! oid).
  - intros d oid c. discriminate.
Qed.

Lemma switchport_exit_iff_applied_witness :
  switchport_applied Sim.cisco true
    (Sim.port "access" (Some "5") None (Some "12") None)
    (World Sim.switch []) true
    (run (Switchport.main Sim.cisco true
            (Sim.port "access" (Some "5") None (Some "12") None))
         Sim.switch).2.
Proof.
  apply (switchport_exit_iff_applied Sim.cisco true
           (Sim.port "access" (Some "5") None (Some "12") None)
           (World Sim.switch []) _ true sim_never_exits).
  by vm_compute.
Defined.

Lemma cdp_exit_iff_applied_witness :
  cdp_applied Sim.cisco true (Sim.cdp (Some "disabled") None None None)
    (World Sim.switch []) true
    (run (Cdp.main Sim.cisco true (Sim.cdp (Some "disabled") None None None))
         Sim.switch).2.
Proof.
  apply (cdp_exit_iff_applied Sim.cisco true
           (Sim.cdp (Some "disabled") None None None)
           (World Sim.switch []) _ true sim_never_exits).
  by vm_compute.
Defined.

(** ** Running a module again *)
Section Again.
Context {D : Type} `{SnmpHandler D}.
Hypothesis Hlaw : lawful (D:=D).

Lemma agrees_off_refl S (d : D) : agrees_off S d d.
Proof. by split_and!. Qed.

Lemma agrees_off_trans S (d d1 d2 : D) :
  agrees_off S d d1 -> agrees_off S d1 d2 -> agrees_off S d d2.
Proof.
  intros (Hc1 & Hw1 & Hg1) (Hc2 & Hw2 & Hg2). split_and!.
  - intros kw. by rewrite Hc2.
  - intros oid. by rewrite Hw2.
  - intros oid Hoid. by rewrite Hg2, Hg1.
Qed.

Lemma agrees_off_weaken (S S' : string -> Prop) (d d' : D) :
  (forall x, S x -> S' x) -> agrees_off S d d' -> agrees_off S' d d'.
Proof.
  intros HS (Hc & Hw & Hg). split_and!; [done | done |].
  intros oid Hoid. apply Hg. intros HSoid. by apply Hoid, HS.
Qed.

Lemma settled_agrees S (d d' : D) oid v :
  settled d oid v -> agrees_off S d d' -> ~ S oid -> settled d' oid v.
Proof.
  intros (cur & Hget & Heq) (_ & _ & Hg) Hoid. exists cur. split; [|done].
  pose proof (law_get_pure Hlaw d' oid) as Hpure.
  specialize (Hg oid Hoid). rewrite Hget in Hg. simpl in *.
  destruct (dev_get_value d' oid) as [r d'']. simpl in *. by subst.
Qed.

Lemma set_state_agrees oid v (w w1 : world D) c :
  set_state oid v w = (Ret c, w1) ->
  agrees_off (eq oid) (device w) (device w1).
Proof.
  unfold set_state, bind, try_except_Exception, try_except,
    get_value, set_value, fail_json, raise, ret.
  pose proof (law_get_pure Hlaw (device w) oid) as Hpure.
  destruct (dev_get_value (device w) oid) as [[e|cur] d1]; simpl in *;
    subst d1.
  { destruct (is_Exception e); discriminate. }
  destruct (py_eq cur v); simpl.
  { intros [= <- <-]. apply agrees_off_refl. }
  destruct (dev_set (device w) oid v) as [[e|] d2] eqn:Hset; simpl;
    [discriminate|].
  intros [= <- <-]. simpl. by eapply law_frame.
Qed.

Lemma flag_at_agrees arg codec oid (w w1 : world D) c :
  flag_at arg codec oid w c w1 ->
  agrees_off (fun x => truthy arg = true /\ oid = x) (device w) (device w1).
Proof.
  unfold flag_at. destruct (truthy arg).
  - intros (v & _ & Hset).
    eapply agrees_off_weaken; [|by eapply set_state_agrees]. by intros x <-.
  - intros [_ ->]. apply agrees_off_refl.
Qed.

Lemma flag_at_needs arg codec oid (w w1 : world D) c :
  flag_at arg codec oid w c w1 -> needs_at arg codec oid (device w1).
Proof.
  unfold flag_at, needs_at. intros Hflag Harg. rewrite Harg in Hflag.
  destruct Hflag as (v & Hv & Hset). exists v. split; [done|].
  eapply set_state_settles;
    [apply (law_get_pure Hlaw) | apply (law_read_back Hlaw) | done].
Qed.

Lemma needs_at_agrees S arg codec oid (d d' : D) :
  needs_at arg codec oid d -> agrees_off S d d' ->
  (truthy arg = true -> ~ S oid) -> needs_at arg codec oid d'.
Proof.
  intros Hneeds Hagree Hoid Harg.
  destruct (Hneeds Harg) as (v & Hv & Hsettled). exists v. split; [done|].
  eapply settled_agrees; [done | done | by apply Hoid].
Qed.

(** On a device that already reads the value, the setting's flag is
    [False] and only a read is sent. *)
Lemma needs_at_flag arg codec oid (d : D) tr :
  needs_at arg codec oid d ->
  exists evs,
    flag_at arg codec oid (World d tr) false (World d (tr ++ evs))
    /\ no_SET evs.
Proof.
  unfold needs_at, flag_at. intros Hneeds.
  destruct (truthy arg).
  - destruct (Hneeds eq_refl) as (v & Hv & cur & Hget & Heq).
    exists [Event GET oid true]. split; [|by repeat constructor].
    exists v. split; [done|].
    by apply (set_state_equal (World d tr) oid (VInt v) cur d).
  - exists []. split; [|constructor]. by rewrite app_nil_r.
Qed.

(** [flag] is [flag_at] at the OID under the bound interface. *)
Lemma flag_as_flag_at arg codec base interface (w w1 : world D) c :
  flag arg codec base interface w c w1
  <-> exists oid,
      (truthy arg = true ->
       exists i, interface = Some i /\ oid = base +:+ "." +:+ i)
      /\ flag_at arg codec oid w c w1.
Proof.
  unfold flag, flag_at. destruct (truthy arg).
  - split.
    + intros (i & v & -> & Hv & Hset). exists (base +:+ "." +:+ i).
      split; [by exists i | by exists v].
    + intros (oid & Hoid & v & Hv & Hset).
      destruct (Hoid eq_refl) as (i & -> & ->). by exists i, v.
  - split; [intros [-> ->]; by exists "" | by intros (_ & _ & ?)].
Qed.

Lemma bind_interface_device o name id (w w0 : world D) interface :
  bind_interface o name id w = (Ret interface, w0) -> device w0 = device w.
Proof.
  unfold bind_interface, interface_by_name.
  unfold try_except_Exception, getnext, fail_json, raise, bind, ret.
  cbv beta.
  destruct (truthy name); [|by intros [= _ <-]].
  pose proof (law_walk_pure Hlaw (device w) (ifDescr o)) as Hpure.
  destruct (dev_getnext (device w) (ifDescr o)) as [[e|t] d1]; simpl in *;
    subst d1.
  { destruct (is_Exception e); simpl; discriminate. }
  destruct (scan_vartable (the name) t); simpl; [|discriminate].
  by intros [= _ <-].
Qed.

(** Binding the interface again on a device that answers walks the same
    way gives the same interface and sends no write. *)
Lemma bind_interface_again o name id (w w0 : world D) interface d' tr :
  bind_interface o name id w = (Ret interface, w0) ->
  (dev_getnext d' (ifDescr o)).1 = (dev_getnext (device w) (ifDescr o)).1 ->
  exists evs,
    bind_interface o name id (World d' tr)
    = (Ret interface, World d' (tr ++ evs))
    /\ no_SET evs.
Proof.
  unfold bind_interface, interface_by_name.
  unfold try_except_Exception, getnext, fail_json, raise, bind, ret.
  cbv beta.
  destruct (truthy name).
  2:{ intros [= <- _] _. exists []. split; [|constructor].
      by rewrite app_nil_r. }
  pose proof (law_walk_pure Hlaw d' (ifDescr o)) as Hpure.
  intros Hrun Hsame. simpl.
  destruct (dev_getnext d' (ifDescr o)) as [r d'']. simpl in *. subst.
  destruct (dev_getnext (device w) (ifDescr o)) as [[e|t] d1]; simpl in *.
  { destruct (is_Exception e); simpl; discriminate. }
  destruct (scan_vartable (the name) t); simpl in *; [|discriminate].
  injection Hrun as <- _.
  exists [Event GETNEXT (ifDescr o) true]. split; [done|].
  by repeat constructor.
Qed.

Lemma open_session_again has_nelsnmp c (w : world D) d' tr :
  open_session has_nelsnmp c w = (Ret tt, w) ->
  (forall kw, dev_connect d' kw = dev_connect (device w) kw) ->
  open_session has_nelsnmp c (World d' tr) = (Ret tt, World d' tr).
Proof.
  intros Hopen Hsame.
  apply open_session_returns_iff in Hopen as (Hn & Hcred & Hk & _).
  apply open_session_returns_iff. split_and!; try done.
  simpl. by rewrite Hsame.
Qed.
Lemma switchport_applied_again (o : CiscoOids) has_nelsnmp m_args
    (w w3 : world D) c tr :
  catalog_separate o ->
  switchport_applied o has_nelsnmp m_args w c w3 ->
  exists evs,
    switchport_applied o has_nelsnmp m_args (World (device w3) tr) false
      (World (device w3) (tr ++ evs))
    /\ no_SET evs.
Proof.
  intros (_ & Hda & Hdn & Han)
    (interface & w0 & w1 & w2 & c1 & c2 & c3
     & Hopen & Hif & H1 & H2 & H3 & _).
  pose proof (bind_interface_device _ _ _ _ _ _ Hif) as Hd0.
  apply flag_as_flag_at in H1 as (o1 & Ho1 & F1).
  apply flag_as_flag_at in H2 as (o2 & Ho2 & F2).
  apply flag_as_flag_at in H3 as (o3 & Ho3 & F3).
  pose proof (flag_at_agrees _ _ _ _ _ _ F1) as A1.
  pose proof (flag_at_agrees _ _ _ _ _ _ F2) as A2.
  pose proof (flag_at_agrees _ _ _ _ _ _ F3) as A3.
  rewrite Hd0 in A1.
  (* the whole run answers walks and the constructor as before *)
  assert (Hall : agrees_off (fun _ => True) (device w) (device w3)).
  { eapply agrees_off_trans; [|eapply agrees_off_trans];
      (eapply agrees_off_weaken; [|eassumption]); done. }
  destruct Hall as (Hconnect & Hwalk & _).
  (* each requested setting is read back on the final device *)
  assert (N1 : needs_at (Switchport.mode m_args)
                 (fun s => Switchport.PORT_MODE !! s) o1 (device w3)).
  { eapply needs_at_agrees; [eapply needs_at_agrees|..];
      [by eapply flag_at_needs | exact A2 | | exact A3 |].
    - intros Hm [Ha Heq]. destruct (Ho1 Hm) as (i & _ & ->).
      destruct (Ho2 Ha) as (i' & _ & ->). by eapply Hda.
    - intros Hm [Hn Heq]. destruct (Ho1 Hm) as (i & _ & ->).
      destruct (Ho3 Hn) as (i' & _ & ->). by eapply Hdn. }
  assert (N2 : needs_at (Switchport.access_vlan m_args) py_int o2
                 (device w3)).
  { eapply needs_at_agrees; [by eapply flag_at_needs | exact A3 |].
    intros Ha [Hn Heq]. destruct (Ho2 Ha) as (i & _ & ->).
    destruct (Ho3 Hn) as (i' & _ & ->). by eapply Han. }
  assert (N3 : needs_at (Switchport.native_vlan m_args) py_int o3
                 (device w3)) by (by eapply flag_at_needs).
  destruct (bind_interface_again o _ _ w w0 interface (device w3) tr Hif
              (Hwalk _)) as (evs0 & Hif' & Hno0).
  destruct (needs_at_flag _ _ _ (device w3) (tr ++ evs0) N1)
    as (evs1 & F1' & Hno1).
  destruct (needs_at_flag _ _ _ (device w3) ((tr ++ evs0) ++ evs1) N2)
    as (evs2 & F2' & Hno2).
  destruct (needs_at_flag _ _ _ (device w3)
              (((tr ++ evs0) ++ evs1) ++ evs2) N3)
    as (evs3 & F3' & Hno3).
  exists (evs0 ++ evs1 ++ evs2 ++ evs3). split.
  - exists interface, (World (device w3) (tr ++ evs0)),
      (World (device w3) ((tr ++ evs0) ++ evs1)),
      (World (device w3) (((tr ++ evs0) ++ evs1) ++ evs2)),
      false, false, false.
    split_and!; [by apply (open_session_again _ _ w) | done | ..| done].
    + apply flag_as_flag_at. by exists o1.
    + apply flag_as_flag_at. by exists o2.
    + apply flag_as_flag_at. exists o3. split; [done|].
      by rewrite !app_assoc.
  - unfold no_SET in *. by rewrite !Forall_app.
Qed.

Lemma cdp_applied_again (o : CiscoOids) has_nelsnmp m_args
    (w w2 : world D) c tr :
  catalog_separate o ->
  cdp_applied o has_nelsnmp m_args w c w2 ->
  exists evs,
    cdp_applied o has_nelsnmp m_args (World (device w2) tr) false
      (World (device w2) (tr ++ evs))
    /\ no_SET evs.
Proof.
  intros (Hgi & _)
    (interface & w0 & w1 & c1 & c2 & Hopen & Hif & F1 & H2 & _).
  pose proof (bind_interface_device _ _ _ _ _ _ Hif) as Hd0.
  apply flag_as_flag_at in H2 as (o2 & Ho2 & F2).
  pose proof (flag_at_agrees _ _ _ _ _ _ F1) as A1.
  pose proof (flag_at_agrees _ _ _ _ _ _ F2) as A2.
  rewrite Hd0 in A1.
  assert (Hall : agrees_off (fun _ => True) (device w) (device w2)).
  { eapply agrees_off_trans;
      (eapply agrees_off_weaken; [|eassumption]); done. }
  destruct Hall as (Hconnect & Hwalk & _).
  assert (N1 : needs_at (Cdp.cdp_global m_args)
                 (fun s => Cdp.CDP_STATE !! s) (cdpGlobalRun o +:+ ".0")
                 (device w2)).
  { eapply needs_at_agrees; [by eapply flag_at_needs | exact A2 |].
    intros Hg [Hi Heq]. destruct (Ho2 Hi) as (i & _ & ->).
    apply (Hgi "0" i). symmetry. exact Heq. }
  assert (N2 : needs_at (Cdp.cdp_interface m_args)
                 (fun s => Cdp.CDP_STATE !! s) o2 (device w2))
    by (by eapply flag_at_needs).
  destruct (bind_interface_again o _ _ w w0 interface (device w2) tr Hif
              (Hwalk _)) as (evs0 & Hif' & Hno0).
  destruct (needs_at_flag _ _ _ (device w2) (tr ++ evs0) N1)
    as (evs1 & F1' & Hno1).
  destruct (needs_at_flag _ _ _ (device w2) ((tr ++ evs0) ++ evs1) N2)
    as (evs2 & F2' & Hno2).
  exists (evs0 ++ evs1 ++ evs2). split.
  - exists interface, (World (device w2) (tr ++ evs0)),
      (World (device w2) ((tr ++ evs0) ++ evs1)), false, false.
    split_and!; [by apply (open_session_again _ _ w) | done | done | | done].
    apply flag_as_flag_at. exists o2. split; [done|].
    by rewrite !app_assoc.
  - unfold no_SET in *. by rewrite !Forall_app.
Qed.
End Again.

Lemma sim_lawful : lawful (D:=Sim.dev).
Proof.
  split.
  - apply sim_reads_are_pure.
  - done.
  - apply sim_reads_back.
  - intros d d' oid v. simpl. case_bool_decide; [discriminate|].
    intros [= <-]. split_and!; [done | done |].
    intros oid' Hne. simpl. by rewrite lookup_insert_ne.
Qed.

(** X15. The switchport module is idempotent on a device that keeps what
    is written: on a client that obeys the device laws, with a catalog of
    disjoint subtrees, after a run that exits (with [changed] true or
    false) a second run with the same arguments exits with
    [changed = False], sends no write and leaves the device as the first
    run left it. *)
Theorem switchport_idempotent {D : Type} `{SnmpHandler D}
    (o : CiscoOids) has_nelsnmp m_args (w w3 : world D) c :
  lawful (D:=D) -> never_exits (D:=D) -> catalog_separate o ->
  Switchport.main o has_nelsnmp m_args w
  = (Raise (SystemExit (ExitJson c)), w3) ->
  exists evs,
    run (Switchport.main o has_nelsnmp m_args) (device w3)
    = (Raise (SystemExit (ExitJson false)), World (device w3) evs)
    /\ no_SET evs.
Proof.
  intros Hlaw Hnever Hsep Hrun.
  apply (switchport_exit_applied o has_nelsnmp m_args w w3 c Hnever) in Hrun.
  destruct (switchport_applied_again Hlaw o has_nelsnmp m_args w w3 c []
              Hsep Hrun) as (evs & Happlied & Hno).
  exists evs. split; [|done]. unfold run.
  by apply switchport_applied_exits.
Qed.

Lemma switchport_idempotent_witness :
  exists evs,
    run (Switchport.main Sim.cisco true
           (Sim.port "access" (Some "5") None (Some "20") (Some "30")))
        (device (run (Switchport.main Sim.cisco true
                        (Sim.port "access" (Some "5") None (Some "20")
                                  (Some "30")))
                     Sim.switch).2)
    = (Raise (SystemExit (ExitJson false)),
       World (device (run (Switchport.main Sim.cisco true
                             (Sim.port "access" (Some "5") None (Some "20")
                                       (Some "30")))
                          Sim.switch).2) evs)
    /\ no_SET evs.
Proof.
  apply (switchport_idempotent Sim.cisco true
           (Sim.port "access" (Some "5") None (Some "20") (Some "30"))
           (World Sim.switch []) _ true
           sim_lawful sim_never_exits sim_catalog_separate).
  by vm_compute.
Defined.

(** X16. The CDP module is idempotent in the same way: after a run that
    exits, a second run with the same arguments on a lawful device exits
    with [changed = False] and sends no write. *)
Theorem cdp_idempotent {D : Type} `{SnmpHandler D}
    (o : CiscoOids) has_nelsnmp m_args (w w2 : world D) c :
  lawful (D:=D) -> never_exits (D:=D) -> catalog_separate o ->
  Cdp.main o has_nelsnmp m_args w = (Raise (SystemExit (ExitJson c)), w2) ->
  exists evs,
    run (Cdp.main o has_nelsnmp m_args) (device w2)
    = (Raise (SystemExit (ExitJson false)), World (device w2) evs)
    /\ no_SET evs.
Proof.
  intros Hlaw Hnever Hsep Hrun.
  apply (cdp_exit_applied o has_nelsnmp m_args w w2 c Hnever) in Hrun.
  destruct (cdp_applied_again Hlaw o has_nelsnmp m_args w w2 c []
              Hsep Hrun) as (evs & Happlied & Hno).
  exists evs. split; [|done]. unfold run.
  by apply cdp_applied_exits.
Qed.

Lemma cdp_idempotent_witness :
  exists evs,
    run (Cdp.main Sim.cisco true
           (Sim.cdp None (Some "enabled") None (Some "Gi0/1")))
        (device (run (Cdp.main Sim.cisco true
                        (Sim.cdp None (Some "enabled") None (Some "Gi0/1")))
                     Sim.switch).2)
    = (Raise (SystemExit (ExitJson false)),
       World (device (run (Cdp.main Sim.cisco true
                             (Sim.cdp None (Some "enabled") None
                                      (Some "Gi0/1")))
                          Sim.switch).2) evs)
    /\ no_SET evs.
Proof.
  apply (cdp_idempotent Sim.cisco true
           (Sim.cdp None (Some "enabled") None (Some "Gi0/1"))
           (World Sim.switch []) _ true
           sim_lawful sim_never_exits sim_catalog_separate).
  by vm_compute.
Defined.

(** ** What [changed] reports *)
Section Written.
Context {D : Type} `{SnmpHandler D}.

Lemma no_SET_not_Exists (evs : list event) :
  no_SET evs -> ~ Exists (fun e => is_SET e = true) evs.
Proof.
  intros Hno Hex. apply Exists_exists in Hex as (e & Hin & He).
  unfold no_SET in Hno. rewrite Forall_forall in Hno.
  specialize (Hno e Hin). congruence.
Qed.

Lemma set_state_written_iff oid v (w w1 : world D) c :
  set_state oid v w = (Ret c, w1) ->
  exists evs,
    trace w1 = trace w ++ evs
    /\ (c = true <-> Exists (fun e => is_SET e = true) evs).
Proof.
  unfold set_state, bind, try_except_Exception, try_except,
    get_value, set_value, fail_json, raise, ret.
  destruct (dev_get_value (device w) oid) as [[e|cur] d1]; simpl.
  { destruct (is_Exception e); discriminate. }
  destruct (py_eq cur v); simpl.
  - intros [= <- <-]. exists [Event GET oid true]. split; [done|].
    split; [done|]. intros Hex. apply Exists_cons in Hex as [?|Hex]; [done|].
    by apply Exists_nil in Hex.
  - destruct (dev_set d1 oid v) as [[e|] d2]; simpl; [discriminate|].
    intros [= <- <-].
    exists [Event GET oid true; Event (SET v) oid true].
    split; [by rewrite <- app_assoc|]. split; [|done].
    intros _. apply Exists_cons_tl, Exists_cons_hd. done.
Qed.

Lemma flag_at_written_iff arg codec oid (w w1 : world D) c :
  flag_at arg codec oid w c w1 ->
  exists evs,
    trace w1 = trace w ++ evs
    /\ (c = true <-> Exists (fun e => is_SET e = true) evs).
Proof.
  unfold flag_at. destruct (truthy arg).
  - intros (v & _ & Hset). by eapply set_state_written_iff.
  - intros [-> ->]. exists []. split; [by rewrite app_nil_r|].
    split; [done|]. intros Hex. by apply Exists_nil in Hex.
Qed.

Lemma flag_written_iff arg codec base interface (w w1 : world D) c :
  flag arg codec base interface w c w1 ->
  exists evs,
    trace w1 = trace w ++ evs
    /\ (c = true <-> Exists (fun e => is_SET e = true) evs).
Proof.
  intros Hflag. apply flag_as_flag_at in Hflag as (oid & _ & Hflag).
  by eapply flag_at_written_iff.
Qed.

Lemma bind_interface_no_SET o name id (w w0 : world D) interface :
  bind_interface o name id w = (Ret interface, w0) ->
  exists evs, trace w0 = trace w ++ evs /\ no_SET evs.
Proof.
  intros Hrun.
  destruct (emits_bind_interface (fun e => ev_op e = GETNEXT) o name id
              ltac:(done) w) as (evs & Ht & Hall & _).
  rewrite Hrun in Ht. exists evs. split; [done|].
  eapply Forall_impl; [exact Hall|].
  intros e He. unfold is_SET. by rewrite He.
Qed.
End Written.

(** X17. [changed] reports exactly whether the device was written: on a
    client that does not itself raise the exit, a run of either module that
    exits does so with [changed = True] if and only if it sent a write. *)
Theorem changed_iff_written {D : Type} `{SnmpHandler D}
    (o : CiscoOids) has_nelsnmp (d : D) c w' :
  never_exits (D:=D) ->
  (forall m_args,
      run (Switchport.main o has_nelsnmp m_args) d
      = (Raise (SystemExit (ExitJson c)), w') ->
      (c = true <-> Exists (fun e => is_SET e = true) (trace w')))
  /\ (forall m_args,
      run (Cdp.main o has_nelsnmp m_args) d
      = (Raise (SystemExit (ExitJson c)), w') ->
      (c = true <-> Exists (fun e => is_SET e = true) (trace w'))).
Proof.
  intros Hnever. split; intros m_args Hrun; unfold run in Hrun.
  - apply (switchport_exit_applied o has_nelsnmp m_args _ _ _ Hnever) in Hrun
      as (interface & w0 & w1 & w2 & c1 & c2 & c3
          & _ & Hif & H1 & H2 & H3 & ->).
    apply bind_interface_no_SET in Hif as (evs0 & Ht0 & Hno0).
    apply flag_written_iff in H1 as (evs1 & Ht1 & Hc1).
    apply flag_written_iff in H2 as (evs2 & Ht2 & Hc2).
    apply flag_written_iff in H3 as (evs3 & Ht3 & Hc3).
    rewrite Ht3, Ht2, Ht1, Ht0. simpl.
    rewrite !Exists_app, !orb_true_iff, Hc1, Hc2, Hc3.
    pose proof (no_SET_not_Exists _ Hno0). tauto.
  - apply (cdp_exit_applied o has_nelsnmp m_args _ _ _ Hnever) in Hrun
      as (interface & w0 & w1 & c1 & c2 & _ & Hif & H1 & H2 & ->).
    apply bind_interface_no_SET in Hif as (evs0 & Ht0 & Hno0).
    apply flag_at_written_iff in H1 as (evs1 & Ht1 & Hc1).
    apply flag_written_iff in H2 as (evs2 & Ht2 & Hc2).
    rewrite Ht2, Ht1, Ht0. simpl.
    rewrite !Exists_app, !orb_true_iff, Hc1, Hc2.
    pose proof (no_SET_not_Exists _ Hno0). tauto.
Qed.

Lemma changed_iff_written_witness :
  true = true
  <-> Exists (fun e => is_SET e = true)
        (trace (run (Switchport.main Sim.cisco true
                       (Sim.port "access" (Some "5") None (Some "12") None))
                    Sim.switch).2).
Proof.
  destruct (@changed_iff_written Sim.dev Sim.handler Sim.cisco true
              Sim.switch true
              (run (Switchport.main Sim.cisco true
                      (Sim.port "access" (Some "5") None (Some "12") None))
                   Sim.switch).2 sim_never_exits) as [Hport _].
  apply (Hport (Sim.port "access" (Some "5") None (Some "12") None)).
  by vm_compute.
Defined.
